(** * field_indices: Sentinel-2 scene selection, quality filtering and
      vegetation indices for a field parcel

    A shallow embedding of the notebook [field_indices.ipynb]:
    [preprocess_sentinel2_scenes], [extract_s2_data],
    [save_scene_as_geotiff], [plot_scenes] and the per-shapefile body of
    [process_shapefiles_in_subfolders].

    The notebook drives the EOdal library.  The methods it calls on a scene
    ([resample], [mask_clouds_and_shadows], [is_blackfilled],
    [get_cloudy_pixel_percentage], [calc_si]) are not part of the notebook;
    each of them is modelled from the specification and marked as such.

    Reflectances, index values, cloud percentages and thresholds are exact
    rationals; a pixel holding a band's no-data sentinel is [None].  A
    function that can raise returns an [option], [None] for the exception. *)

From Stdlib Require Import Ascii QArith.
From stdpp Require Import gmap strings list fin_maps sorting.

Open Scope string_scope.
Open Scope list_scope.
Open Scope nat_scope.

(** ** Timestamps and their [strftime] renderings *)

Module Timestamps.

(** [datetime.datetime]: the key of a scene in the scene collection and
    the [sensing_time] column of the metadata table. *)
Record datetime := DateTime {
  year : nat; month : nat; day : nat;
  hour : nat; minute : nat; second : nat
}.

(** [datetime.date]: the [sensing_date] column. *)
Record date := Date { d_year : nat; d_month : nat; d_day : nat }.

#[global] Instance datetime_eq_dec : EqDecision datetime.
Proof. solve_decision. Defined.

#[global] Instance date_eq_dec : EqDecision date.
Proof. solve_decision. Defined.

(** Every Python [datetime] has a year below 10000 and two-digit month,
    day, hour and minute; on these the renderings below are faithful. *)
Definition valid_datetime (t : datetime) : Prop :=
  year t < 100 * 100 ∧ month t < 100 ∧ day t < 100 ∧ hour t < 100 ∧ minute t < 100.

Definition digit (n : nat) : ascii := ascii_of_nat (48 + n mod 10).

(** [%m], [%d], [%H], [%M]: two zero-padded decimal digits. *)
Definition pad2 (n : nat) : string :=
  String (digit (n / 10)) (String (digit n) EmptyString).

(** [%Y]: four zero-padded decimal digits. *)
Definition pad4 (n : nat) : string :=
  String (digit (n / 1000)) (String (digit (n / 100)) (pad2 n)).

(** [t.strftime('%Y-%m-%d %H:%M')] *)
Definition strftime_minute (t : datetime) : string :=
  pad4 (year t) +:+ "-" +:+ pad2 (month t) +:+ "-" +:+ pad2 (day t)
    +:+ " " +:+ pad2 (hour t) +:+ ":" +:+ pad2 (minute t).

(** [d.strftime('%Y-%m-%d')] *)
Definition strftime_date (d : date) : string :=
  pad4 (d_year d) +:+ "-" +:+ pad2 (d_month d) +:+ "-" +:+ pad2 (d_day d).

(** The slice [s[0:16]]. *)
Definition slice_0_16 (s : string) : string := String.substring 0 16 s.

(** Chronological order of timestamps: lexicographic on the fields. *)
Definition dt_key (t : datetime) : list nat :=
  [year t; month t; day t; hour t; minute t; second t].

Fixpoint lex_ltb (a b : list nat) : bool :=
  match a, b with
  | x :: a', y :: b' => (x <? y) || ((x =? y) && lex_ltb a' b')
  | [], _ :: _ => true
  | _, _ => false
  end.

Definition dt_ltb (a b : datetime) : bool := lex_ltb (dt_key a) (dt_key b).
Definition dt_lt (a b : datetime) : Prop := dt_ltb a b = true.
Definition dt_le (a b : datetime) : Prop := a = b ∨ dt_lt a b.

End Timestamps.
Export Timestamps.

(** ** Raster scenes *)

Module Raster.

(** One band of a scene: its pixel size and its grid in row-major order.
    A pixel is [Some v], or [None] when it carries the band's no-data
    sentinel. *)
Record Band (A : Type) := mkBand {
  resolution : Z;
  pixels : list (option A)
}.
Arguments mkBand {A} _ _.
Arguments resolution {A} _.
Arguments pixels {A} _.

(** A Sentinel-2 scene clipped to the parcel: the scene classification
    layer (integer class codes), the four reflectance bands the indices
    read, and every further band by name (the remaining reflectance bands
    and, once computed, the indices). *)
Record RasterScene := mkScene {
  scl : Band Z;
  blue : Band Q;
  red : Band Q;
  red_edge : Band Q;
  nir : Band Q;
  others : gmap string (Band Q)
}.

Definition is_nodata {A} (p : option A) : bool :=
  match p with None => true | Some _ => false end.

(** A reflectance or index band of the scene, under any name. *)
Definition value_band (s : RasterScene) (b : Band Q) : Prop :=
  b = blue s ∨ b = red s ∨ b = red_edge s ∨ b = nir s
  ∨ ∃ name, others s !! name = Some b.

(** *** Scene Classification Mask *)

(** Modelled from the spec: the per-pixel validity derived from the
    classification band, which EOdal computes inside
    [mask_clouds_and_shadows] and [get_cloudy_pixel_percentage].  A pixel
    is valid when its class code is not one of the invalid classes; a
    no-data pixel is always invalid. *)
Definition pixel_valid (cloud_classes : list Z) (p : option Z) : bool :=
  match p with
  | None => false
  | Some code => negb (bool_decide (code ∈ cloud_classes))
  end.

(** Modelled from the spec: the ValidityMask of a scene, a boolean grid
    derived from the classification band, true for a usable pixel. *)
Definition validity_mask (cloud_classes : list Z) (s : RasterScene) : list bool :=
  pixel_valid cloud_classes <$> pixels (scl s).

(** The mask at a pixel position; a position the classification band
    does not cover has no class and is invalid. *)
Definition mask_at (m : list bool) (i : nat) : bool := default false (m !! i).

(** *** Resampling and masking *)

(** Modelled from the spec: applying the mask to one grid, a part of
    [mask_clouds_and_shadows].  A pixel where the mask is false becomes the
    no-data sentinel; the others are untouched. *)
Definition mask_pixels {A} (m : list bool) (ps : list (option A)) : list (option A) :=
  imap (λ i p, if mask_at m i then p else None) ps.

Definition mask_band {A} (m : list bool) (b : Band A) : Band A :=
  mkBand (resolution b) (mask_pixels m (pixels b)).

(** Modelled from the spec: [Sentinel2.mask_clouds_and_shadows], absent
    from the notebook.  Every band's pixels where the validity mask is
    false are set to the band's no-data sentinel. *)
Definition mask_clouds_and_shadows (cloud_classes : list Z) (s : RasterScene) : RasterScene :=
  let m := validity_mask cloud_classes s in
  {| scl := mask_band m (scl s);
     blue := mask_band m (blue s);
     red := mask_band m (red s);
     red_edge := mask_band m (red_edge s);
     nir := mask_band m (nir s);
     others := mask_band m <$> others s |}.

Section Resampling.

(** The resampling rules are fixed but left open by the spec: nearest
    neighbour for the categorical band, and one documented method for
    the continuous bands.  Each maps a grid at the source pixel size to
    a grid at the target pixel size. *)
Variable nearest_neighbour : Z → Z → list (option Z) → list (option Z).
Variable continuous_method : Z → Z → list (option Q) → list (option Q).

(** Modelled from the spec: resampling one band, a part of [resample].
    Re-running on an already-resampled band is a no-op. *)
Definition resample_band {A} (rule : Z → Z → list (option A) → list (option A))
    (target_resolution : Z) (b : Band A) : Band A :=
  if decide (resolution b = target_resolution) then b
  else mkBand target_resolution (rule (resolution b) target_resolution (pixels b)).

(** Modelled from the spec: [Sentinel2.resample], absent from the
    notebook.  All bands are brought to the target resolution; a band
    that already has it is left as it is. *)
Definition resample (target_resolution : Z) (s : RasterScene) : RasterScene :=
  {| scl := resample_band nearest_neighbour target_resolution (scl s);
     blue := resample_band continuous_method target_resolution (blue s);
     red := resample_band continuous_method target_resolution (red s);
     red_edge := resample_band continuous_method target_resolution (red_edge s);
     nir := resample_band continuous_method target_resolution (nir s);
     others := resample_band continuous_method target_resolution <$> others s |}.

(** [preprocess_sentinel2_scenes(ds, target_resolution)] *)
Definition preprocess_sentinel2_scenes (ds : RasterScene) (target_resolution : Z) : RasterScene :=
  (* resample scene *)
  let ds := resample target_resolution ds in
  (* mask clouds, shadows, and snow *)
  let ds := mask_clouds_and_shadows [3; 8; 9; 10; 11]%Z ds in
  ds.

End Resampling.

(** *** Quality observations *)

Definition all_nodata {A} (b : Band A) : bool := forallb is_nodata (pixels b).

(** Modelled from the spec: the property [Sentinel2.is_blackfilled],
    absent from the notebook.  Every pixel across all bands equals the
    no-data sentinel. *)
Definition is_blackfilled (s : RasterScene) : bool :=
  all_nodata (scl s) && all_nodata (blue s) && all_nodata (red s)
  && all_nodata (red_edge s) && all_nodata (nir s)
  && bool_decide (map_Forall (λ _ b, all_nodata b = true) (others s)).

Definition count_invalid (m : list bool) : nat := length (filter (λ v, v = false) m).

(** Modelled from the spec: the quantity
    [invalid_fraction = count(validity_mask == false) / total_pixels]
    over the parcel footprint.  (Division is that of [Q]: on a scene
    without pixels the fraction is 0.) *)
Definition invalid_fraction (cloud_classes : list Z) (s : RasterScene) : Q :=
  let m := validity_mask cloud_classes s in
  (inject_Z (Z.of_nat (count_invalid m)) / inject_Z (Z.of_nat (length m)))%Q.

(** Modelled from the spec: [Sentinel2.get_cloudy_pixel_percentage],
    absent from the notebook: the invalid fraction as a percentage. *)
Definition get_cloudy_pixel_percentage (cloud_classes : list Z) (s : RasterScene) : Q :=
  (invalid_fraction cloud_classes s * 100)%Q.

(** *** Spectral indices *)

Inductive spectral_index := NDVI | NDRE | EVI.

Definition index_name (i : spectral_index) : string :=
  match i with NDVI => "NDVI" | NDRE => "NDRE" | EVI => "EVI" end.

(** Modelled from the spec: the per-pixel rule of [calc_si] for NDVI and
    NDRE, [(a - b) / (a + b)], no-data when an input is no-data or the
    denominator is zero. *)
Definition normalized_difference (a b : option Q) : option Q :=
  match a, b with
  | Some x, Some y =>
      if Qeq_bool (x + y) 0 then None else Some ((x - y) / (x + y))%Q
  | _, _ => None
  end.

(** Modelled from the spec: the per-pixel rule of [calc_si] for EVI,
    [2.5 * (NIR - RED) / (NIR + 6*RED - 7.5*BLUE + 1)], no-data when an
    input is no-data or the denominator is zero. *)
Definition evi_denominator (n r b : Q) : Q := (n + 6 * r - (15 # 2) * b + 1)%Q.

Definition enhanced_vegetation (n r b : option Q) : option Q :=
  match n, r, b with
  | Some n, Some r, Some b =>
      if Qeq_bool (evi_denominator n r b) 0 then None
      else Some ((5 # 2) * (n - r) / evi_denominator n r b)%Q
  | _, _, _ => None
  end.

(** Modelled from the spec: the grid of an index, computed elementwise
    from the bands it reads. *)
Definition index_pixels (i : spectral_index) (s : RasterScene) : list (option Q) :=
  match i with
  | NDVI => zip_with normalized_difference (pixels (nir s)) (pixels (red s))
  | NDRE => zip_with normalized_difference (pixels (nir s)) (pixels (red_edge s))
  | EVI =>
      zip_with (λ nr b, enhanced_vegetation nr.1 nr.2 b)
               (zip (pixels (nir s)) (pixels (red s))) (pixels (blue s))
  end.

(** Modelled from the spec: [RasterCollection.calc_si(name, inplace=True)],
    absent from the notebook.  The index is computed pixel by pixel and
    added as a new band on the same scene; the reflectance bands stay. *)
Definition calc_si (i : spectral_index) (s : RasterScene) : RasterScene :=
  {| scl := scl s; blue := blue s; red := red s; red_edge := red_edge s; nir := nir s;
     others := <[index_name i := mkBand (resolution (nir s)) (index_pixels i s)]> (others s) |}.

End Raster.
Export Raster.

(** ** The mapper: metadata table and scene collection *)

Module Pipeline.

(** One row of [mapper.metadata]: a candidate scene the catalog returned. *)
Record MetadataRow := mkRow {
  product_uri : string;
  sensing_time : datetime;
  sensing_date : date;
  scene_used : string
}.

(** An EOdal [SceneCollection]: scenes keyed by their timestamp, iterated
    in the order the collection holds them. *)
Abbreviation SceneCollection := (list (datetime * RasterScene)).

(** The state of the mapper once [query_scenes] and [load_scenes] have run:
    the metadata of the candidates and the loaded, pre-processed scenes. *)
Record Mapper := mkMapper {
  metadata : list MetadataRow;
  data : SceneCollection
}.

Definition scene_ids (c : SceneCollection) : list datetime := c.*1.

(** [mapper.metadata['scene_used'] = label] *)
Definition set_column_scene_used (label : string) (md : list MetadataRow) : list MetadataRow :=
  (λ r, mkRow (product_uri r) (sensing_time r) (sensing_date r) label) <$> md.

(** The row selector
    [sensing_time.dt.strftime('%Y-%m-%d %H:%M') == scene_id.strftime('%Y-%m-%d %H:%M')[0:16]] *)
Definition row_matches (scene_id : datetime) (r : MetadataRow) : bool :=
  bool_decide (strftime_minute (sensing_time r) = slice_0_16 (strftime_minute scene_id)).

Definition mark_row (scene_id : datetime) (label : string) (r : MetadataRow) : MetadataRow :=
  if row_matches scene_id r
  then mkRow (product_uri r) (sensing_time r) (sensing_date r) label
  else r.

(** [mapper.metadata.loc[<row selector>, 'scene_used'] = label] *)
Definition mark_scene (scene_id : datetime) (label : string) (md : list MetadataRow) : list MetadataRow :=
  mark_row scene_id label <$> md.

(** [a > b] on the cloud percentages. *)
Definition Qgt_bool (a b : Q) : bool := negb (Qle_bool a b).

(** The loop [for scene_id, scene in mapper.data] of [extract_s2_data]:
    it threads [scenes_to_del] and the metadata table, and returns with
    them the collection, whose kept scenes were updated in place. *)
Fixpoint quality_loop (feature_cloud_cover_threshold : Q) (coll : SceneCollection)
    (scenes_to_del : list datetime) (md : list MetadataRow)
    : list datetime * list MetadataRow * SceneCollection :=
  match coll with
  | [] => (scenes_to_del, md, [])
  | (scene_id, scene) :: rest =>
      (* check if scene is blackfilled (nodata); if yes continue *)
      if is_blackfilled scene then
        let scenes_to_del := scenes_to_del ++ [scene_id] in
        let md := mark_scene scene_id "No [blackfill]" md in
        let '(dels, md', coll') :=
          quality_loop feature_cloud_cover_threshold rest scenes_to_del md in
        (dels, md', (scene_id, scene) :: coll')
      else
        (* check cloud coverage (including shadows and snow) of the field parcel *)
        let feature_cloud_cover := get_cloudy_pixel_percentage [3; 8; 9; 10; 11]%Z scene in
        (* if the scene is too cloudy, we skip it *)
        if Qgt_bool feature_cloud_cover feature_cloud_cover_threshold then
          let scenes_to_del := scenes_to_del ++ [scene_id] in
          let md := mark_scene scene_id "No [clouds]" md in
          let '(dels, md', coll') :=
            quality_loop feature_cloud_cover_threshold rest scenes_to_del md in
          (dels, md', (scene_id, scene) :: coll')
        else
          (* calculate the NDVI, NDRE and EVI *)
          let scene := calc_si NDVI scene in
          let scene := calc_si NDRE scene in
          let scene := calc_si EVI scene in
          let '(dels, md', coll') :=
            quality_loop feature_cloud_cover_threshold rest scenes_to_del md in
          (dels, md', (scene_id, scene) :: coll')
  end.

(** [del mapper.data[scene_id]]: a [KeyError] ([None]) when the collection
    has no scene under that key. *)
Definition del_scene (scene_id : datetime) (coll : SceneCollection) : option SceneCollection :=
  if decide (scene_id ∈ scene_ids coll)
  then Some (filter (λ e, e.1 ≠ scene_id) coll)
  else None.

(** [for scene_id in scenes_to_del: del mapper.data[scene_id]] *)
Definition del_scenes (scenes_to_del : list datetime) (coll : SceneCollection) : option SceneCollection :=
  foldl (λ acc scene_id, acc ≫= del_scene scene_id) (Some coll) scenes_to_del.

(** [extract_s2_data], from the point where the mapper has queried and
    loaded the scenes; [None] stands for an exception. *)
Definition extract_s2_data (mapper : Mapper) (feature_cloud_cover_threshold : Q) : option Mapper :=
  let scenes_to_del := [] in
  let md := set_column_scene_used "yes" (metadata mapper) in
  let '(scenes_to_del, md, coll) :=
    quality_loop feature_cloud_cover_threshold (data mapper) scenes_to_del md in
  (* delete scenes too cloudy or containing only no-data *)
  coll ← del_scenes scenes_to_del coll;
  Some (mkMapper md coll).

End Pipeline.
Export Pipeline.

(** ** Export and plotting *)

Module Output.

(** What the export and plotting code asks of its collaborators, in the
    order it asks. *)
Inductive event :=
| ToRasterio (scene_id : datetime) (base_path shapefile_name file_name band : string)
| Figtext (column : nat) (text : string)
| PlotBand (scene_id : datetime) (band : string) (row column : nat)
| Savefig (folder file_name : string)
| Print (message : string).

Definition indices : list string := ["ndvi"; "ndre"; "evi"].

Definition base_paths (index : string) : string :=
  if decide (index = "ndvi") then
    "C:\Users\aless\Desktop\Agroscope\FerN\results\parcel_visualisation\field_indices\raster\ndvi"
  else if decide (index = "ndre") then
    "C:\Users\aless\Desktop\Agroscope\FerN\results\parcel_visualisation\field_indices\raster\ndre"
  else
    "C:\Users\aless\Desktop\Agroscope\FerN\results\parcel_visualisation\field_indices\raster\evi".

(** [metadata[metadata['scene_used'] == 'yes']['sensing_date'].tolist()] *)
Definition sensing_dates_with_scene_used_list (metadata : list MetadataRow) : list date :=
  sensing_date <$> filter (λ r, scene_used r = "yes") metadata.

(** [dates[idx].strftime('%Y-%m-%d') if idx < len(dates) else "No Date"] *)
Definition sensing_date_string (dates : list date) (idx : nat) : string :=
  if bool_decide (idx < length dates)
  then from_option strftime_date "" (dates !! idx)
  else "No Date".

(** [save_scene_as_geotiff(scene, shapefile_name, metadata, scene_id, res)] *)
Definition save_scene_as_geotiff (scene : RasterScene) (shapefile_name : string)
    (metadata : list MetadataRow) (scene_id : datetime) (res : SceneCollection) : list event :=
  let dates := sensing_dates_with_scene_used_list metadata in
  mjoin (imap (λ idx '(scene_id, scene),
    let sensing_date_string := sensing_date_string dates idx in
    (λ index,
       ToRasterio scene_id (base_paths index) shapefile_name
         (shapefile_name +:+ "_" +:+ index +:+ "_" +:+ sensing_date_string +:+ ".tiff")
         index) <$> indices) res).

(** [plot_scenes(res, shapefile_name, metadata, save_path, scene_id)] *)
Definition plot_scenes (res : SceneCollection) (shapefile_name : string)
    (metadata : list MetadataRow) (save_path : string) (scene_id : datetime) : list event :=
  let dates := sensing_dates_with_scene_used_list metadata in
  mjoin (imap (λ idx '(scene_id, scene),
    let sensing_date_string := sensing_date_string dates idx in
    [Figtext idx sensing_date_string;
     PlotBand scene_id "NDVI" 0 idx;
     PlotBand scene_id "NDRE" 1 idx;
     PlotBand scene_id "EVI" 2 idx]) res)
  ++ [Savefig "png" (shapefile_name +:+ ".png"); Savefig "pdf" (shapefile_name +:+ ".pdf")].

Definition save_path : string :=
  "C:\Users\aless\Desktop\Agroscope\FerN\results\parcel_visualisation\field_indices".

(** The body of [process_shapefiles_in_subfolders] for one shapefile, from
    the loaded mapper on: the extracted mapper and the trace of requests,
    or [None] for an exception. *)
Definition process_shapefile (shapefile_name : string) (mapper : Mapper) : option (Mapper * list event) :=
  res ← extract_s2_data mapper 20;
  let metadata := metadata res in
  let exports : list event :=
    mjoin ((λ '(scene_id, scene),
              save_scene_as_geotiff scene shapefile_name metadata scene_id (data res))
           <$> data res) in
  (* Plot the scenes if data is available; [scene_id] is the loop variable
     as the export loop left it *)
  let plots :=
    match last (data res) with
    | Some (scene_id, _) => plot_scenes (data res) shapefile_name metadata save_path scene_id
    | None => [Print ("No data available for " +:+ shapefile_name)]
    end in
  Some (res, (Print ("Processing " +:+ shapefile_name) :: exports ++ plots)%list).

Definition is_export (e : event) : bool :=
  match e with ToRasterio _ _ _ _ _ => true | _ => false end.

Definition is_plot (e : event) : bool :=
  match e with Figtext _ _ | PlotBand _ _ _ _ | Savefig _ _ => true | _ => false end.

End Output.
Export Output.

(** ** The mapper after a query without result *)

Module Loaded.

(** The mapper as [query_scenes] and [load_scenes] leave it.  EOdal starts
    a mapper with [data = None], and [load_scenes] sets the scene collection
    only when the query found scenes: after a query that returned zero
    candidates the table is empty and [mapper.data] is still [None]. *)
Record LoadedMapper := mkLoaded {
  loaded_metadata : list MetadataRow;
  loaded_data : option SceneCollection
}.

(** [extract_s2_data] on that state.  The loop
    [for scene_id, scene in mapper.data] has no guard: iterating [None]
    raises a [TypeError]. *)
Definition extract_s2_data_loaded (mapper : LoadedMapper)
    (feature_cloud_cover_threshold : Q) : option Mapper :=
  coll ← loaded_data mapper;
  extract_s2_data (mkMapper (loaded_metadata mapper) coll) feature_cloud_cover_threshold.

(** The body of [process_shapefiles_in_subfolders] for one shapefile on
    that state: [extract_s2_data] is called first, and an exception in it
    ends the run before anything else. *)
Definition process_shapefile_loaded (shapefile_name : string) (mapper : LoadedMapper)
    : option (Mapper * list event) :=
  coll ← loaded_data mapper;
  process_shapefile shapefile_name (mkMapper (loaded_metadata mapper) coll).

End Loaded.
Export Loaded.

(** ** Vocabulary of the statements *)

Module Props.

(** The outcome of the two checks of the loop body for one scene, in the
    order the loop makes them. *)
Inductive Disposition := Used | RejectedBlackfill | RejectedTooCloudy.

#[global] Instance Disposition_eq_dec : EqDecision Disposition.
Proof. solve_decision. Defined.

Definition classify (feature_cloud_cover_threshold : Q) (scene : RasterScene) : Disposition :=
  if is_blackfilled scene then RejectedBlackfill
  else if Qgt_bool (get_cloudy_pixel_percentage [3; 8; 9; 10; 11]%Z scene)
                   feature_cloud_cover_threshold
       then RejectedTooCloudy
       else Used.

(** The value the loop writes to [scene_used] for each outcome; [yes] is
    the initial value of the column. *)
Definition status_label (d : Disposition) : string :=
  match d with
  | Used => "yes"
  | RejectedBlackfill => "No [blackfill]"
  | RejectedTooCloudy => "No [clouds]"
  end.

(** A scene after the three [calc_si] calls of the loop. *)
Definition add_indices (scene : RasterScene) : RasterScene :=
  calc_si EVI (calc_si NDRE (calc_si NDVI scene)).

(** Every pixel across all bands of the scene is no-data. *)
Definition blackfill (s : RasterScene) : Prop :=
  Forall (λ p, p = None) (pixels (scl s))
  ∧ ∀ b, value_band s b → Forall (λ p, p = None) (pixels b).

(** The candidates the loop rejects, and what is left of the collection. *)
Definition rejected (threshold : Q) (coll : SceneCollection) : SceneCollection :=
  filter (λ e, classify threshold e.2 ≠ Used) coll.

Definition kept (threshold : Q) (coll : SceneCollection) : SceneCollection :=
  (λ e, (e.1, add_indices e.2)) <$> filter (λ e, classify threshold e.2 = Used) coll.

(** The collection as the loop leaves it, before the deletions. *)
Definition processed (threshold : Q) (coll : SceneCollection) : SceneCollection :=
  (λ e, (e.1, if decide (classify threshold e.2 = Used) then add_indices e.2 else e.2)) <$> coll.

(** The table after the marks of the rejected candidates, in loop order. *)
Definition marked (threshold : Q) (coll : SceneCollection) (md : list MetadataRow) : list MetadataRow :=
  foldl (λ md e, mark_scene e.1 (status_label (classify threshold e.2)) md) md (rejected threshold coll).

(** One row under the mark of one scene, labelled by [lbl], and one row
    after the marks of the rejected candidates. *)
Definition mark_with (lbl : datetime * RasterScene → string)
    (r : MetadataRow) (e : datetime * RasterScene) : MetadataRow :=
  mark_row e.1 (lbl e) r.

Definition final_row (threshold : Q) (coll : SceneCollection) (r : MetadataRow) : MetadataRow :=
  foldl (mark_with (λ e, status_label (classify threshold e.2))) r (rejected threshold coll).

(** The selector of [mark_scene], as a proposition. *)
Definition minute_match (r : MetadataRow) (scene_id : datetime) : Prop :=
  strftime_minute (sensing_time r) = slice_0_16 (strftime_minute scene_id).

Definition with_disposition (d : Disposition) (threshold : Q) (coll : SceneCollection) : SceneCollection :=
  filter (λ e, classify threshold e.2 = d) coll.

(** The rows of the table carrying a given [scene_used] value. *)
Definition count_status (label : string) (md : list MetadataRow) : nat :=
  length (filter (λ r, scene_used r = label) md).

(** The denominators of the indices vanish at a pixel. *)
Definition zero_sum (a b : option Q) : Prop :=
  ∃ x y, a = Some x ∧ b = Some y ∧ (x + y == 0)%Q.

Definition zero_evi_denominator (n r b : option Q) : Prop :=
  ∃ x y z, n = Some x ∧ r = Some y ∧ b = Some z ∧ (evi_denominator x y z == 0)%Q.

(** The row carries one of the three status values. *)
Definition status_ok (r : MetadataRow) : Prop :=
  scene_used r = "yes" ∨ scene_used r = "No [blackfill]" ∨ scene_used r = "No [clouds]".

(** Two timestamps agree up to the minute. *)
Definition same_minute (a b : datetime) : Prop :=
  year a = year b ∧ month a = month b ∧ day a = day b
  ∧ hour a = hour b ∧ minute a = minute b.

(** The status a run records for the scene [scene_id]: every row that
    agrees with the scene to the minute reads [label] afterwards, provided
    no scene of [others] that the run removed agrees with that row too
    (its mark would be the one that shows). *)
Definition recorded (m res : Mapper) (others : SceneCollection)
    (scene_id : datetime) (label : string) : Prop :=
  ∀ i r, metadata m !! i = Some r → minute_match r scene_id →
    (∀ e, e ∈ others → e.1 ∉ scene_ids (data res) → ¬ minute_match r e.1) →
    ∃ r', metadata res !! i = Some r' ∧ scene_used r' = label.

End Props.
Export Props.

(** ** Sample data *)

Module Sample.

Definition t1 : datetime := DateTime 2023 5 1 10 20 31.
Definition t2 : datetime := DateTime 2023 5 6 10 20 29.
Definition t3 : datetime := DateTime 2023 5 11 10 30 58.

Definition band (l : list (option Q)) : Band Q := mkBand 10 l.

(** A clear scene of four pixels. *)
Definition clear : RasterScene :=
  mkScene (mkBand 10 [Some 4; Some 4; Some 5; Some 4]%Z)
    (band [Some (1 # 10); Some (1 # 10); Some (1 # 10); Some (1 # 10)]%Q)
    (band [Some (1 # 10); Some (2 # 10); Some 0; None]%Q)
    (band [Some (2 # 10); Some (2 # 10); Some (2 # 10); Some (2 # 10)]%Q)
    (band [Some (5 # 10); Some (6 # 10); Some 0; Some (4 # 10)]%Q)
    ∅.

(** One masked pixel in four: 25 percent. *)
Definition cloudy : RasterScene :=
  mkScene (mkBand 10 [Some 4; None; Some 5; Some 4]%Z)
    (band [Some (1 # 10); None; Some (1 # 10); Some (1 # 10)]%Q)
    (band [Some (1 # 10); None; Some (3 # 10); Some (1 # 10)]%Q)
    (band [Some (2 # 10); None; Some (2 # 10); Some (2 # 10)]%Q)
    (band [Some (5 # 10); None; Some (4 # 10); Some (4 # 10)]%Q)
    ∅.

(** One masked pixel in five: exactly 20 percent. *)
Definition at_threshold : RasterScene :=
  mkScene (mkBand 10 [Some 4; None; Some 5; Some 4; Some 4]%Z)
    (band [Some (1 # 10); None; Some (1 # 10); Some (1 # 10); Some (1 # 10)]%Q)
    (band [Some (1 # 10); None; Some (3 # 10); Some (1 # 10); Some (1 # 10)]%Q)
    (band [Some (2 # 10); None; Some (2 # 10); Some (2 # 10); Some (1 # 10)]%Q)
    (band [Some (5 # 10); None; Some (4 # 10); Some (4 # 10); Some (1 # 10)]%Q)
    ∅.

Definition black : RasterScene :=
  mkScene (mkBand 10 [None; None]) (band [None; None]) (band [None; None])
    (band [None; None]) (band [None; None]) ∅.

(** A freshly loaded scene: classification at 20 m, a cloud pixel. *)
Definition raw : RasterScene :=
  mkScene (mkBand 20 [Some 4; Some 9; Some 5; Some 4]%Z)
    (band [Some (1 # 10); Some (1 # 10); Some (1 # 10); Some (1 # 10)]%Q)
    (band [Some (1 # 10); Some (2 # 10); Some 0; None]%Q)
    (band [Some (2 # 10); Some (2 # 10); Some (2 # 10); Some (2 # 10)]%Q)
    (band [Some (5 # 10); Some (6 # 10); Some 0; Some (4 # 10)]%Q)
    {[ "B11" := mkBand 20 [Some (3 # 10); Some (3 # 10); Some (3 # 10); Some (3 # 10)]%Q ]}.

Definition rows : list MetadataRow :=
  [ mkRow "S2A_1" t1 (Date 2023 5 1) "";
    mkRow "S2B_2" t2 (Date 2023 5 6) "";
    mkRow "S2A_3" (DateTime 2023 5 11 10 31 2) (Date 2023 5 11) "" ].

(** Three candidates: kept, too cloudy, blackfilled.  The third row is a
    few seconds, and one minute on the clock, after its scene. *)
Definition mapper : Mapper := mkMapper rows [(t1, clear); (t2, cloudy); (t3, black)].

End Sample.

(** ** Further vocabulary *)

Module Further.

(** Every Python [date] has a year below 10000 and a two-digit month and
    day. *)
Definition valid_date (d : date) : Prop :=
  d_year d < 100 * 100 ∧ d_month d < 100 ∧ d_day d < 100.

(** Where an export request writes: the base folder of the index, the
    subfolder of the shapefile and the file name. *)
Definition export_target (e : event) : option (string * string * string) :=
  match e with
  | ToRasterio _ base_path shapefile_name file_name _ =>
      Some (base_path, shapefile_name, file_name)
  | _ => None
  end.

(** The table and the collection correspond row by scene: they are equally
    long, and a row agrees to the minute with the scene at its own position
    and with no other. *)
Definition aligned (m : Mapper) : Prop :=
  length (metadata m) = length (data m)
  ∧ ∀ i j r e, metadata m !! i = Some r → data m !! j = Some e →
      (minute_match r e.1 ↔ i = j).

(** Two rejected scenes of the same clock minute and the one row both
    agree with. *)
Definition same_minute_pair : Mapper :=
  mkMapper [mkRow "S2A_7" (DateTime 2023 6 1 10 20 0) (Date 2023 6 1) ""]
           [ (DateTime 2023 6 1 10 20 5, Sample.black);
             (DateTime 2023 6 1 10 20 40, Sample.cloudy) ].

(** A run in which every scene passes, and one in which none does. *)
Definition all_clear : Mapper :=
  mkMapper [ mkRow "S2A_1" Sample.t1 (Date 2023 5 1) "No [clouds]";
             mkRow "S2B_2" Sample.t2 (Date 2023 5 6) "" ]
           [(Sample.t1, Sample.clear); (Sample.t2, Sample.at_threshold)].

Definition none_usable : Mapper :=
  mkMapper [ mkRow "S2A_1" Sample.t1 (Date 2023 5 1) "";
             mkRow "S2B_2" Sample.t2 (Date 2023 5 6) "" ]
           [(Sample.t1, Sample.black); (Sample.t2, Sample.cloudy)].

(** A table and a collection that correspond row by scene; the first scene
    is too cloudy. *)
Definition in_step : Mapper :=
  mkMapper [ mkRow "S2A_1" Sample.t1 (Date 2023 5 1) "";
             mkRow "S2B_2" Sample.t2 (Date 2023 5 6) "" ]
           [(Sample.t1, Sample.cloudy); (Sample.t2, Sample.clear)].

End Further.
Export Further.

(** * Proofs *)

(** Distinct keys of a concrete collection, by evaluation. *)
Ltac distinct_ids :=
  unfold scene_ids; apply (bool_decide_unpack _); vm_compute; exact I.

(** ** Renderings *)

Lemma slice_strftime_minute t : slice_0_16 (strftime_minute t) = strftime_minute t.
Proof. reflexivity. Qed.

Lemma digit_inj a b : a < 10 → b < 10 → digit a = digit b → a = b.
Proof.
  intros Ha Hb H. unfold digit in H.
  apply (f_equal nat_of_ascii) in H.
  rewrite !nat_ascii_embedding in H by (pose proof (Nat.mod_upper_bound a 10); pose proof (Nat.mod_upper_bound b 10); lia).
  rewrite !Nat.mod_small in H by lia. lia.
Qed.

Lemma pad2_inj a b : a < 100 → b < 100 → pad2 a = pad2 b → a = b.
Proof.
  intros Ha Hb H. unfold pad2 in H.
  assert (H1 : digit (a / 10) = digit (b / 10)) by congruence.
  assert (H2 : digit a = digit b) by congruence.
  apply digit_inj in H1; [|apply Nat.Div0.div_lt_upper_bound; lia..].
  unfold digit in H2. apply (f_equal nat_of_ascii) in H2.
  pose proof (Nat.mod_upper_bound a 10). pose proof (Nat.mod_upper_bound b 10).
  rewrite !nat_ascii_embedding in H2 by lia.
  pose proof (Nat.div_mod_eq a 10). pose proof (Nat.div_mod_eq b 10). lia.
Qed.

Lemma pad4_inj a b : a < 100 * 100 → b < 100 * 100 → pad4 a = pad4 b → a = b.
Proof.
  intros Ha Hb H. unfold pad4, pad2 in H.
  assert (H1 : digit (a / 1000) = digit (b / 1000)) by congruence.
  assert (H2 : digit (a / 100) = digit (b / 100)) by congruence.
  assert (H3 : digit (a / 10) = digit (b / 10)) by congruence.
  assert (H4 : digit a = digit b) by congruence.
  apply digit_inj in H1; [|apply Nat.Div0.div_lt_upper_bound; lia..].
  unfold digit in H2, H3, H4.
  apply (f_equal nat_of_ascii) in H2, H3, H4.
  pose proof (Nat.mod_upper_bound a 10). pose proof (Nat.mod_upper_bound b 10).
  pose proof (Nat.mod_upper_bound (a / 10) 10). pose proof (Nat.mod_upper_bound (b / 10) 10).
  pose proof (Nat.mod_upper_bound (a / 100) 10). pose proof (Nat.mod_upper_bound (b / 100) 10).
  rewrite !nat_ascii_embedding in H2, H3, H4 by lia.
  pose proof (Nat.div_mod_eq a 10). pose proof (Nat.div_mod_eq b 10).
  pose proof (Nat.div_mod_eq (a / 10) 10). pose proof (Nat.div_mod_eq (b / 10) 10).
  pose proof (Nat.div_mod_eq (a / 100) 10). pose proof (Nat.div_mod_eq (b / 100) 10).
  rewrite !Nat.Div0.div_div in *. simpl (10 * 10) in *. simpl (100 * 10) in *.
  lia.
Qed.

(** On Python datetimes two minute renderings agree exactly when the
    timestamps agree up to the minute. *)
Lemma strftime_minute_eq_iff a b :
  valid_datetime a → valid_datetime b →
  strftime_minute a = strftime_minute b ↔ same_minute a b.
Proof.
  intros (Ha1 & Ha2 & Ha3 & Ha4 & Ha5) (Hb1 & Hb2 & Hb3 & Hb4 & Hb5).
  unfold same_minute. split.
  - intros H. unfold strftime_minute in H.
    assert (Hy : pad4 (year a) = pad4 (year b)) by (unfold pad4, pad2 in *; cbv [String.append] in H; congruence).
    assert (Hm : pad2 (month a) = pad2 (month b)) by (unfold pad4, pad2 in *; cbv [String.append] in H; congruence).
    assert (Hd : pad2 (day a) = pad2 (day b)) by (unfold pad4, pad2 in *; cbv [String.append] in H; congruence).
    assert (Hh : pad2 (hour a) = pad2 (hour b)) by (unfold pad4, pad2 in *; cbv [String.append] in H; congruence).
    assert (Hi : pad2 (minute a) = pad2 (minute b)) by (unfold pad4, pad2 in *; cbv [String.append] in H; congruence).
    repeat split; [apply pad4_inj | apply pad2_inj ..]; assumption.
  - intros (H1 & H2 & H3 & H4 & H5). unfold strftime_minute. congruence.
Qed.

(** ** The loop of [extract_s2_data] *)

Lemma rejected_cons_Used thr scene_id scene rest :
  classify thr scene = Used →
  rejected thr ((scene_id, scene) :: rest) = rejected thr rest.
Proof. intros Hc. unfold rejected. apply filter_cons_False. simpl. by rewrite Hc; intros []. Qed.

Lemma rejected_cons_other thr scene_id scene rest :
  classify thr scene ≠ Used →
  rejected thr ((scene_id, scene) :: rest) = (scene_id, scene) :: rejected thr rest.
Proof. intros Hc. unfold rejected. by apply filter_cons_True. Qed.

(** One turn of the loop, read through [classify]. *)
Lemma quality_loop_cons thr scene_id scene rest dels md :
  quality_loop thr ((scene_id, scene) :: rest) dels md =
    match classify thr scene with
    | Used =>
        let '(dels', md', coll') := quality_loop thr rest dels md in
        (dels', md', (scene_id, add_indices scene) :: coll')
    | d =>
        let '(dels', md', coll') :=
          quality_loop thr rest (dels ++ [scene_id])
                       (mark_scene scene_id (status_label d) md) in
        (dels', md', (scene_id, scene) :: coll')
    end.
Proof.
  cbn [quality_loop]. unfold classify.
  destruct (is_blackfilled scene); [reflexivity|].
  destruct (Qgt_bool _ _); reflexivity.
Qed.

Lemma quality_loop_spec thr coll dels md :
  quality_loop thr coll dels md =
    (dels ++ scene_ids (rejected thr coll), marked thr coll md, processed thr coll).
Proof.
  revert dels md. induction coll as [|[scene_id scene] rest IH]; intros dels md.
  - simpl. by rewrite app_nil_r.
  - rewrite quality_loop_cons. unfold marked, processed in *.
    destruct (classify thr scene) eqn:Hc; cbn [status_label]; rewrite IH.
    + rewrite rejected_cons_Used by done.
      simpl. rewrite Hc. by rewrite decide_True.
    + rewrite rejected_cons_other by (by rewrite Hc).
      simpl. rewrite Hc, <- (assoc_L (++)). by rewrite decide_False.
    + rewrite rejected_cons_other by (by rewrite Hc).
      simpl. rewrite Hc, <- (assoc_L (++)). by rewrite decide_False.
Qed.

Lemma scene_ids_processed thr coll : scene_ids (processed thr coll) = scene_ids coll.
Proof.
  unfold scene_ids, processed. rewrite <- list_fmap_compose. by apply list_fmap_ext.
Qed.

Lemma del_scene_Some scene_id coll r :
  del_scene scene_id coll = Some r → r = filter (λ e, e.1 ≠ scene_id) coll.
Proof. unfold del_scene. case_decide; congruence. Qed.

Lemma del_scenes_None ks : foldl (λ acc k, acc ≫= del_scene k) None ks = None.
Proof. by induction ks. Qed.

Lemma del_scenes_Some ks coll r :
  del_scenes ks coll = Some r → r = filter (λ e, e.1 ∉ ks) coll.
Proof.
  unfold del_scenes. revert coll. induction ks as [|k ks IH]; intros coll.
  - intros [= <-]. symmetry. induction coll as [|e coll IHc]; [done|].
    rewrite filter_cons_True; [by f_equal | set_solver].
  - simpl. destruct (del_scene k coll) as [c|] eqn:Hd; [|by rewrite del_scenes_None].
    intros H. apply IH in H. apply del_scene_Some in Hd. subst r c.
    rewrite list_filter_filter. apply list_filter_iff.
    intros x. rewrite not_elem_of_cons. tauto.
Qed.

Lemma del_scenes_ok ks coll :
  NoDup ks → ks ⊆ scene_ids coll →
  del_scenes ks coll = Some (filter (λ e, e.1 ∉ ks) coll).
Proof.
  intros Hnd Hsub.
  destruct (del_scenes ks coll) as [r|] eqn:Hr.
  { by apply del_scenes_Some in Hr as ->. }
  exfalso. revert coll Hsub Hr. unfold del_scenes.
  induction Hnd as [|k ks Hk Hnd IH]; intros coll Hsub; [done|].
  simpl. unfold del_scene at 2. rewrite decide_True by set_solver. simpl.
  apply IH. intros x Hx. unfold scene_ids.
  assert (x ∈ scene_ids coll) as Hin by set_solver.
  apply list_elem_of_fmap in Hin as (e & -> & He).
  apply list_elem_of_fmap_2, list_elem_of_filter. split; [set_solver|done].
Qed.

Lemma scene_ids_unique coll (e e' : datetime * RasterScene) :
  NoDup (scene_ids coll) → e ∈ coll → e' ∈ coll → e.1 = e'.1 → e = e'.
Proof.
  unfold scene_ids. induction coll as [|x coll IH]; intros Hnd He He' Hk.
  - by apply elem_of_nil in He.
  - rewrite fmap_cons in Hnd. apply NoDup_cons in Hnd as [Hx Hnd].
    apply elem_of_cons in He as [->|He]; apply elem_of_cons in He' as [->|He'].
    + done.
    + exfalso. apply Hx. rewrite Hk. by apply list_elem_of_fmap_2.
    + exfalso. apply Hx. rewrite <- Hk. by apply list_elem_of_fmap_2.
    + by apply IH.
Qed.

Lemma rejected_ids_iff thr coll (e : datetime * RasterScene) :
  NoDup (scene_ids coll) → e ∈ coll →
  e.1 ∈ scene_ids (rejected thr coll) ↔ classify thr e.2 ≠ Used.
Proof.
  intros Hnd He. unfold scene_ids, rejected. split.
  - intros (e' & Hk & He')%list_elem_of_fmap.
    apply list_elem_of_filter in He' as [Hc He'].
    by rewrite (scene_ids_unique coll e e' Hnd He He' Hk).
  - intros Hc. apply list_elem_of_fmap_2. by apply list_elem_of_filter.
Qed.

Lemma kept_of_processed thr coll (R : list datetime) :
  (∀ e, e ∈ coll → e.1 ∈ R ↔ classify thr e.2 ≠ Used) →
  filter (λ e, e.1 ∉ R) (processed thr coll) = kept thr coll.
Proof.
  unfold processed, kept. induction coll as [|e coll IH]; intros HR; [done|].
  rewrite fmap_cons.
  assert (He : e.1 ∈ R ↔ classify thr e.2 ≠ Used) by (apply HR; by left).
  assert (IH' : ∀ e, e ∈ coll → e.1 ∈ R ↔ classify thr e.2 ≠ Used)
    by (intros; apply HR; by right).
  destruct (decide (classify thr e.2 = Used)) as [Hc|Hc].
  - rewrite filter_cons_True by (simpl; tauto).
    rewrite (filter_cons_True (λ e, classify thr e.2 = Used)) by done.
    rewrite fmap_cons. f_equal. by apply IH.
  - rewrite filter_cons_False by (simpl; tauto).
    rewrite (filter_cons_False (λ e, classify thr e.2 = Used)) by done.
    by apply IH.
Qed.

Lemma rejected_sublist thr coll : rejected thr coll `sublist_of` coll.
Proof. apply sublist_filter. Qed.

Lemma NoDup_rejected_ids thr coll :
  NoDup (scene_ids coll) → NoDup (scene_ids (rejected thr coll)).
Proof.
  intros Hnd. eapply sublist_NoDup; [exact Hnd|].
  unfold scene_ids. apply fmap_sublist, rejected_sublist.
Qed.

(** With distinct keys, as in a Python dictionary, [extract_s2_data]
    returns: the table with the rejections marked and the kept scenes with
    their indices. *)
Lemma extract_s2_data_spec m thr :
  NoDup (scene_ids (data m)) →
  extract_s2_data m thr =
    Some (mkMapper (marked thr (data m) (set_column_scene_used "yes" (metadata m)))
                   (kept thr (data m))).
Proof.
  intros Hnd. unfold extract_s2_data. rewrite quality_loop_spec. simpl.
  rewrite del_scenes_ok.
  - simpl. f_equal. f_equal. apply kept_of_processed.
    intros e He. by apply rejected_ids_iff.
  - by apply NoDup_rejected_ids.
  - rewrite scene_ids_processed. intros k Hk. unfold scene_ids in *.
    eapply elem_of_sublist; [exact Hk|]. apply fmap_sublist, rejected_sublist.
Qed.

(** ** Quality filter *)

Lemma all_nodata_iff {A} (b : Band A) :
  all_nodata b = true ↔ Forall (λ p, p = None) (pixels b).
Proof.
  unfold all_nodata. induction (pixels b) as [|p ps IH]; simpl.
  - split; [intros; constructor|done].
  - rewrite andb_true_iff, IH, Forall_cons. destruct p; simpl; intuition congruence.
Qed.

Lemma is_blackfilled_iff s : is_blackfilled s = true ↔ blackfill s.
Proof.
  unfold is_blackfilled, blackfill, value_band.
  rewrite !andb_true_iff, bool_decide_eq_true, map_Forall_lookup, !all_nodata_iff.
  setoid_rewrite all_nodata_iff. split.
  - intros (((((Hs & Hb) & Hr) & He) & Hn) & Ho). split; [done|].
    intros b [->|[->|[->|[->|[name Hb']]]]]; eauto.
  - intros [Hs Hb]. repeat split; eauto 10.
Qed.

Lemma Qgt_bool_iff a b : Qgt_bool a b = true ↔ (b < a)%Q.
Proof.
  unfold Qgt_bool. rewrite negb_true_iff, <- not_true_iff_false, Qle_bool_iff.
  split; [apply Qnot_le_lt | apply Qlt_not_le].
Qed.

Lemma Qgt_bool_false_iff a b : Qgt_bool a b = false ↔ (a <= b)%Q.
Proof.
  unfold Qgt_bool. rewrite negb_false_iff. apply Qle_bool_iff.
Qed.

(** The two checks, read off the scene: blackfill first, then the strict
    comparison of the parcel's cloud percentage with the threshold. *)
Lemma classify_first_match (thr : Q) (s : RasterScene) :
  (classify thr s = RejectedBlackfill ↔ blackfill s)
  ∧ (classify thr s = RejectedTooCloudy ↔
       ¬ blackfill s ∧ (thr < invalid_fraction [3; 8; 9; 10; 11]%Z s * 100)%Q)
  ∧ (classify thr s = Used ↔
       ¬ blackfill s ∧ (invalid_fraction [3; 8; 9; 10; 11]%Z s * 100 <= thr)%Q).
Proof.
  assert (Hb := is_blackfilled_iff s).
  assert (Hg := Qgt_bool_iff (invalid_fraction [3; 8; 9; 10; 11]%Z s * 100) thr).
  assert (Hl := Qgt_bool_false_iff (invalid_fraction [3; 8; 9; 10; 11]%Z s * 100) thr).
  assert (Hc : classify thr s =
               if is_blackfilled s then RejectedBlackfill
               else if Qgt_bool (invalid_fraction [3; 8; 9; 10; 11]%Z s * 100) thr
                    then RejectedTooCloudy else Used) by reflexivity.
  split; [|split].
  - rewrite Hc. destruct (is_blackfilled s).
    + tauto.
    + split; [by destruct (Qgt_bool _ _)|]. intros H. apply Hb in H. done.
  - rewrite Hc. destruct (is_blackfilled s).
    + split; [done|]. tauto.
    + destruct (Qgt_bool _ _).
      * split; [|done]. intros _. split; [|by apply Hg]. intros H. by apply Hb in H.
      * split; [done|]. intros [_ H]. by apply Hg in H.
  - rewrite Hc. destruct (is_blackfilled s).
    + split; [done|]. tauto.
    + destruct (Qgt_bool _ _).
      * split; [done|]. intros [_ H]. by apply Hl in H.
      * split; [|done]. intros _. split; [|by apply Hl]. intros H. by apply Hb in H.
Qed.

Example classify_clear : classify 20 Sample.clear = Used.
Proof. vm_compute. reflexivity. Qed.

Example classify_at_threshold :
  (get_cloudy_pixel_percentage [3; 8; 9; 10; 11]%Z Sample.at_threshold == 20)%Q
  ∧ classify 20 Sample.at_threshold = Used.
Proof. split; vm_compute; reflexivity. Qed.

Example classify_cloudy :
  (get_cloudy_pixel_percentage [3; 8; 9; 10; 11]%Z Sample.cloudy == 25)%Q
  ∧ classify 20 Sample.cloudy = RejectedTooCloudy.
Proof. split; vm_compute; reflexivity. Qed.

Example classify_black :
  (get_cloudy_pixel_percentage [3; 8; 9; 10; 11]%Z Sample.black == 100)%Q
  ∧ classify 20 Sample.black = RejectedBlackfill.
Proof. split; vm_compute; reflexivity. Qed.

(** ** The metadata table *)

Lemma mark_row_columns scene_id label r :
  product_uri (mark_row scene_id label r) = product_uri r
  ∧ sensing_time (mark_row scene_id label r) = sensing_time r
  ∧ sensing_date (mark_row scene_id label r) = sensing_date r.
Proof. unfold mark_row. by destruct (row_matches scene_id r). Qed.

Lemma row_matches_iff scene_id r : row_matches scene_id r = true ↔ minute_match r scene_id.
Proof. unfold row_matches, minute_match. apply bool_decide_eq_true. Qed.

Lemma minute_match_same_minute r scene_id :
  valid_datetime (sensing_time r) → valid_datetime scene_id →
  minute_match r scene_id ↔ same_minute (sensing_time r) scene_id.
Proof.
  intros Hr Hs. unfold minute_match. rewrite slice_strftime_minute.
  by apply strftime_minute_eq_iff.
Qed.

Lemma row_matches_mark_row k scene_id label r :
  row_matches k (mark_row scene_id label r) = row_matches k r.
Proof.
  unfold row_matches. by destruct (mark_row_columns scene_id label r) as (_ & -> & _).
Qed.

Lemma marked_rows thr coll md : marked thr coll md = final_row thr coll <$> md.
Proof.
  unfold marked, final_row. revert md.
  induction (rejected thr coll) as [|e l IH]; intros md; simpl.
  - by rewrite list_fmap_id.
  - rewrite IH. unfold mark_scene. by rewrite <- list_fmap_compose.
Qed.

Lemma foldl_mark_columns lbl l r :
  product_uri (foldl (mark_with lbl) r l) = product_uri r
  ∧ sensing_time (foldl (mark_with lbl) r l) = sensing_time r
  ∧ sensing_date (foldl (mark_with lbl) r l) = sensing_date r.
Proof.
  revert r. induction l as [|e l IH]; intros r; [done|]. cbn [foldl].
  destruct (IH (mark_with lbl r e)) as (-> & -> & ->). apply mark_row_columns.
Qed.

(** The value of [scene_used] is that of the last mark whose selector
    holds of the row, and the initial one if there is none. *)
Lemma foldl_mark_scene_used lbl l r :
  scene_used (foldl (mark_with lbl) r l) =
    match last (filter (λ e, row_matches e.1 r = true) l) with
    | Some e => lbl e
    | None => scene_used r
    end.
Proof.
  induction l as [|e l IH] using rev_ind; [done|].
  rewrite foldl_app, filter_app. cbn [foldl]. unfold mark_with at 1, mark_row.
  assert (Hm : row_matches e.1 (foldl (mark_with lbl) r l) = row_matches e.1 r).
  { unfold row_matches. by destruct (foldl_mark_columns lbl l r) as (_ & -> & _). }
  rewrite Hm. destruct (row_matches e.1 r) eqn:Hr.
  - rewrite (filter_cons_True (λ e, row_matches e.1 r = true)) by done.
    by rewrite filter_nil, last_snoc.
  - rewrite (filter_cons_False (λ e, row_matches e.1 r = true)) by congruence.
    by rewrite filter_nil, app_nil_r.
Qed.

Lemma final_row_columns thr coll r :
  product_uri (final_row thr coll r) = product_uri r
  ∧ sensing_time (final_row thr coll r) = sensing_time r
  ∧ sensing_date (final_row thr coll r) = sensing_date r.
Proof. apply foldl_mark_columns. Qed.

Lemma final_row_scene_used thr coll r :
  scene_used (final_row thr coll r) =
    match last (filter (λ e, row_matches e.1 r = true) (rejected thr coll)) with
    | Some e => status_label (classify thr e.2)
    | None => scene_used r
    end.
Proof. apply foldl_mark_scene_used. Qed.

Lemma last_filter_elem {A} (P : A → Prop) `{!∀ x, Decision (P x)} (l : list A) e :
  last (filter P l) = Some e → P e ∧ e ∈ l.
Proof. intros Hl%last_Some_elem_of. by apply list_elem_of_filter in Hl. Qed.

Lemma rejection_label d :
  d ≠ Used → status_label d = "No [blackfill]" ∨ status_label d = "No [clouds]".
Proof. destruct d; [done|by left|by right]. Qed.

Lemma final_row_status_ok thr coll r :
  scene_used r = "yes" → status_ok (final_row thr coll r).
Proof.
  intros Hr. unfold status_ok. rewrite final_row_scene_used.
  destruct (last _) as [e|] eqn:Hl; [|by left].
  apply last_filter_elem in Hl as [_ He].
  apply list_elem_of_filter in He as [Hc _].
  right. by apply rejection_label.
Qed.

Lemma count_status_partition md :
  Forall status_ok md →
  count_status "yes" md + count_status "No [blackfill]" md
    + count_status "No [clouds]" md = length md.
Proof.
  unfold count_status. induction 1 as [|r md Hr _ IH]; [done|].
  rewrite !filter_cons. cbn [length]. rewrite <- IH.
  destruct Hr as [Hr|[Hr|Hr]]; rewrite Hr;
    repeat case_decide; try congruence; cbn [length]; lia.
Qed.

Lemma disposition_partition thr coll :
  length (kept thr coll) + length (with_disposition RejectedBlackfill thr coll)
    + length (with_disposition RejectedTooCloudy thr coll) = length coll.
Proof.
  unfold kept, with_disposition. rewrite length_fmap.
  induction coll as [|e coll IH]; [done|].
  rewrite !filter_cons. cbn [length]. rewrite <- IH.
  destruct (classify thr e.2);
    repeat case_decide; try congruence; cbn [length]; lia.
Qed.

(** C2.  A run leaves exactly one disposition per candidate: the table
    keeps one row per candidate the catalog returned, every row carries
    one of the three status values, and the rows marked used plus the rows
    marked with each rejection reason add up to the number of candidates.
    Likewise every loaded scene is either kept or rejected for exactly one
    reason. *)
Theorem C2_one_disposition_per_candidate (m : Mapper) (thr : Q) :
  NoDup (scene_ids (data m)) →
  ∃ res, extract_s2_data m thr = Some res
    ∧ length (metadata res) = length (metadata m)
    ∧ Forall status_ok (metadata res)
    ∧ count_status "yes" (metadata res)
        + count_status "No [blackfill]" (metadata res)
        + count_status "No [clouds]" (metadata res) = length (metadata m)
    ∧ length (data res)
        + length (with_disposition RejectedBlackfill thr (data m))
        + length (with_disposition RejectedTooCloudy thr (data m)) = length (data m).
Proof.
  intros Hnd. eexists. split; [by apply extract_s2_data_spec|]. cbn [metadata data].
  assert (Hok : Forall status_ok
            (marked thr (data m) (set_column_scene_used "yes" (metadata m)))).
  { rewrite marked_rows. apply Forall_fmap, Forall_forall. intros r Hr.
    apply final_row_status_ok. unfold set_column_scene_used in Hr.
    by apply list_elem_of_fmap in Hr as (r0 & -> & _). }
  assert (Hlen : length (marked thr (data m) (set_column_scene_used "yes" (metadata m)))
                 = length (metadata m)).
  { rewrite marked_rows. unfold set_column_scene_used. by rewrite !length_fmap. }
  repeat split.
  - done.
  - done.
  - rewrite <- Hlen. by apply count_status_partition.
  - apply disposition_partition.
Qed.

Lemma C2_witness :
  ∃ res, extract_s2_data Sample.mapper 20 = Some res
    ∧ length (metadata res) = length (metadata Sample.mapper)
    ∧ Forall status_ok (metadata res)
    ∧ count_status "yes" (metadata res)
        + count_status "No [blackfill]" (metadata res)
        + count_status "No [clouds]" (metadata res) = length (metadata Sample.mapper)
    ∧ length (data res)
        + length (with_disposition RejectedBlackfill 20 (data Sample.mapper))
        + length (with_disposition RejectedTooCloudy 20 (data Sample.mapper))
      = length (data Sample.mapper).
Proof.
  apply (C2_one_disposition_per_candidate Sample.mapper 20).
  distinct_ids.
Defined.

Lemma rejected_not_kept thr coll (e : datetime * RasterScene) :
  NoDup (scene_ids coll) → e ∈ coll → classify thr e.2 ≠ Used →
  e.1 ∉ scene_ids (kept thr coll).
Proof.
  intros Hnd He Hc Hin. unfold scene_ids, kept in Hin.
  rewrite <- list_fmap_compose in Hin.
  apply list_elem_of_fmap in Hin as (e' & Hk & He').
  apply list_elem_of_filter in He' as [Hc' He']. simpl in Hk.
  by rewrite (scene_ids_unique coll e e' Hnd He He' Hk) in Hc.
Qed.

Lemma row_matches_set_yes k r label :
  row_matches k (mkRow (product_uri r) (sensing_time r) (sensing_date r) label)
  = row_matches k r.
Proof. reflexivity. Qed.

(** C10.  A rejection is recorded in every row whose sensing time,
    rendered to the minute, equals the rendering of the rejected scene's
    identifier cut to sixteen characters: such a row carries the rejection
    label of a rejected scene it matches.  A row that no rejected scene
    matches keeps the initial value yes, although every rejected scene is
    removed from the kept collection. *)
Theorem C10_rejection_recorded_by_minute_match (m : Mapper) (thr : Q) :
  NoDup (scene_ids (data m)) →
  ∃ res, extract_s2_data m thr = Some res
    ∧ (∀ e, e ∈ data m → classify thr e.2 ≠ Used → e.1 ∉ scene_ids (data res))
    ∧ ∀ i r, metadata m !! i = Some r →
        ∃ r', metadata res !! i = Some r'
          ∧ product_uri r' = product_uri r
          ∧ sensing_time r' = sensing_time r
          ∧ sensing_date r' = sensing_date r
          ∧ ((∃ e, e ∈ data m ∧ classify thr e.2 ≠ Used ∧ minute_match r e.1) →
             ∃ e, e ∈ data m ∧ classify thr e.2 ≠ Used ∧ minute_match r e.1
                  ∧ scene_used r' = status_label (classify thr e.2)
                  ∧ scene_used r' ≠ "yes")
          ∧ ((∀ e, e ∈ data m → classify thr e.2 ≠ Used → ¬ minute_match r e.1) →
             scene_used r' = "yes").
Proof.
  intros Hnd. eexists. split; [by apply extract_s2_data_spec|]. cbn [metadata data].
  split; [intros e He Hc; by apply rejected_not_kept|].
  intros i r Hi. set (r0 := mkRow (product_uri r) (sensing_time r) (sensing_date r) "yes").
  exists (final_row thr (data m) r0).
  destruct (final_row_columns thr (data m) r0) as (Hu & Ht & Hd).
  split; [|split; [done|split; [done|split; [done|]]]].
  { rewrite marked_rows. unfold set_column_scene_used.
    by rewrite !list_lookup_fmap, Hi. }
  rewrite final_row_scene_used.
  destruct (last _) as [e|] eqn:Hl.
  - apply last_filter_elem in Hl as [Hm He].
    apply list_elem_of_filter in He as [Hc He].
    unfold r0 in Hm. rewrite row_matches_set_yes in Hm. apply row_matches_iff in Hm.
    split.
    + intros _. exists e. repeat split; try done.
      by destruct (rejection_label _ Hc) as [-> | ->].
    + intros Hno. by destruct (Hno e He Hc).
  - split; [|done].
    intros (e & He & Hc & Hm). exfalso.
    apply last_None in Hl.
    assert (Hin : e ∈ filter (λ e, row_matches e.1 r0 = true) (rejected thr (data m))).
    { apply list_elem_of_filter. split; [|by apply list_elem_of_filter].
      unfold r0. rewrite row_matches_set_yes. by apply row_matches_iff. }
    rewrite Hl in Hin. by apply elem_of_nil in Hin.
Qed.

Lemma C10_witness :
  ∃ res, extract_s2_data Sample.mapper 20 = Some res
    ∧ (∀ e, e ∈ data Sample.mapper → classify 20 e.2 ≠ Used → e.1 ∉ scene_ids (data res))
    ∧ ∀ i r, metadata Sample.mapper !! i = Some r →
        ∃ r', metadata res !! i = Some r'
          ∧ product_uri r' = product_uri r
          ∧ sensing_time r' = sensing_time r
          ∧ sensing_date r' = sensing_date r
          ∧ ((∃ e, e ∈ data Sample.mapper ∧ classify 20 e.2 ≠ Used ∧ minute_match r e.1) →
             ∃ e, e ∈ data Sample.mapper ∧ classify 20 e.2 ≠ Used ∧ minute_match r e.1
                  ∧ scene_used r' = status_label (classify 20 e.2)
                  ∧ scene_used r' ≠ "yes")
          ∧ ((∀ e, e ∈ data Sample.mapper → classify 20 e.2 ≠ Used → ¬ minute_match r e.1) →
             scene_used r' = "yes").
Proof.
  apply (C10_rejection_recorded_by_minute_match Sample.mapper 20).
  distinct_ids.
Defined.

(** On the sample run the blackfilled third scene is removed, yet its row,
    stamped one clock minute later, still reads yes. *)
Example sample_run :
  extract_s2_data Sample.mapper 20 =
    Some (mkMapper
            [ mkRow "S2A_1" Sample.t1 (Date 2023 5 1) "yes";
              mkRow "S2B_2" Sample.t2 (Date 2023 5 6) "No [clouds]";
              mkRow "S2A_3" (DateTime 2023 5 11 10 31 2) (Date 2023 5 11) "yes" ]
            [(Sample.t1, add_indices Sample.clear)]).
Proof. vm_compute. reflexivity. Qed.

(** ** Order of the kept series *)

Lemma scene_ids_kept thr coll :
  scene_ids (kept thr coll) = scene_ids (filter (λ e, classify thr e.2 = Used) coll).
Proof. unfold scene_ids, kept. by rewrite <- list_fmap_compose. Qed.


(** With distinct keys a candidate stays in the collection exactly when
    both checks let it pass. *)
Lemma candidate_kept_iff m thr (e : datetime * RasterScene) :
  NoDup (scene_ids (data m)) → e ∈ data m →
  ∃ res, extract_s2_data m thr = Some res
    ∧ (e.1 ∈ scene_ids (data res) ↔ classify thr e.2 = Used).
Proof.
  intros Hnd He. eexists. split; [by apply extract_s2_data_spec|]. cbn [data]. split.
  - intros Hin. destruct (decide (classify thr e.2 = Used)) as [|Hc]; [done|].
    by destruct (rejected_not_kept thr (data m) e Hnd He Hc).
  - intros Hc. rewrite scene_ids_kept. unfold scene_ids.
    apply list_elem_of_fmap_2. by apply list_elem_of_filter.
Qed.







(** ** Spectral indices of the kept scenes *)

Lemma add_indices_others s :
  others (add_indices s) =
    <["EVI" := mkBand (resolution (nir s)) (index_pixels EVI s)]>
      (<["NDRE" := mkBand (resolution (nir s)) (index_pixels NDRE s)]>
         (<["NDVI" := mkBand (resolution (nir s)) (index_pixels NDVI s)]> (others s))).
Proof. reflexivity. Qed.

Lemma add_indices_bands s :
  scl (add_indices s) = scl s ∧ blue (add_indices s) = blue s
  ∧ red (add_indices s) = red s ∧ red_edge (add_indices s) = red_edge s
  ∧ nir (add_indices s) = nir s.
Proof. by repeat split. Qed.

Lemma normalized_difference_nodata a b :
  a = None ∨ b = None ∨ zero_sum a b → normalized_difference a b = None.
Proof.
  intros [->|[->|(x & y & -> & -> & Hz)]]; [done|by destruct a|].
  unfold normalized_difference. apply Qeq_bool_iff in Hz. by rewrite Hz.
Qed.

Lemma normalized_difference_value x y :
  ¬ (x + y == 0)%Q →
  normalized_difference (Some x) (Some y) = Some ((x - y) / (x + y))%Q.
Proof.
  intros Hz. unfold normalized_difference.
  destruct (Qeq_bool (x + y) 0) eqn:E; [|done]. by apply Qeq_bool_iff in E.
Qed.

Lemma enhanced_vegetation_nodata n r b :
  n = None ∨ r = None ∨ b = None ∨ zero_evi_denominator n r b →
  enhanced_vegetation n r b = None.
Proof.
  intros [->|[->|[->|(x & y & z & -> & -> & -> & Hz)]]].
  - done.
  - by destruct n.
  - by destruct n, r.
  - unfold enhanced_vegetation. apply Qeq_bool_iff in Hz. by rewrite Hz.
Qed.

Lemma enhanced_vegetation_value x y z :
  ¬ (evi_denominator x y z == 0)%Q →
  enhanced_vegetation (Some x) (Some y) (Some z)
  = Some ((5 # 2) * (x - y) / evi_denominator x y z)%Q.
Proof.
  intros Hz. unfold enhanced_vegetation.
  destruct (Qeq_bool (evi_denominator x y z) 0) eqn:E; [|done].
  by apply Qeq_bool_iff in E.
Qed.

Lemma index_pixels_NDVI s i n r :
  pixels (nir s) !! i = Some n → pixels (red s) !! i = Some r →
  index_pixels NDVI s !! i = Some (normalized_difference n r).
Proof. intros Hn Hr. unfold index_pixels. by rewrite lookup_zip_with, Hn, Hr. Qed.

Lemma index_pixels_NDRE s i n e :
  pixels (nir s) !! i = Some n → pixels (red_edge s) !! i = Some e →
  index_pixels NDRE s !! i = Some (normalized_difference n e).
Proof. intros Hn He. unfold index_pixels. by rewrite lookup_zip_with, Hn, He. Qed.

Lemma index_pixels_EVI s i n r b :
  pixels (nir s) !! i = Some n → pixels (red s) !! i = Some r →
  pixels (blue s) !! i = Some b →
  index_pixels EVI s !! i = Some (enhanced_vegetation n r b).
Proof.
  intros Hn Hr Hb. unfold index_pixels.
  rewrite lookup_zip_with, lookup_zip_with, Hn, Hr, Hb. done.
Qed.

(** Whatever [extract_s2_data] returns holds only scenes that passed both
    checks, each with its three indices added. *)
Lemma extract_kept_scene m thr res scene_id scene :
  extract_s2_data m thr = Some res → (scene_id, scene) ∈ data res →
  ∃ s, (scene_id, s) ∈ data m ∧ classify thr s = Used ∧ scene = add_indices s.
Proof.
  unfold extract_s2_data. rewrite quality_loop_spec. cbn [app].
  destruct (del_scenes _ _) as [coll|] eqn:Hd; [|done].
  intros [= <-] Hin. cbn [data] in Hin.
  apply del_scenes_Some in Hd. subst coll.
  apply list_elem_of_filter in Hin as [Hk Hin]. cbn [fst] in Hk.
  unfold processed in Hin. apply list_elem_of_fmap in Hin as ([k s] & Heq & He).
  cbn [fst snd] in Heq. injection Heq as -> ->.
  exists s. split; [done|].
  destruct (decide (classify thr s = Used)) as [Hc|Hc]; [done|].
  exfalso. apply Hk. unfold scene_ids, rejected.
  apply (list_elem_of_fmap_2 fst _ (k, s)). by apply list_elem_of_filter.
Qed.

(** C4.  In every kept scene the three indices are present as bands, and
    at every pixel an index is no-data as soon as one of the bands it reads
    is no-data there or its denominator is zero (NIR + RED = 0 for NDVI);
    otherwise it is the value of its formula. *)
Theorem C4_index_nodata_policy (m : Mapper) (thr : Q) (res : Mapper)
    (scene_id : datetime) (scene : RasterScene) :
  extract_s2_data m thr = Some res → (scene_id, scene) ∈ data res →
  ∃ ndvi ndre evi,
    others scene !! "NDVI" = Some ndvi
    ∧ others scene !! "NDRE" = Some ndre
    ∧ others scene !! "EVI" = Some evi
    ∧ (∀ i n r,
         pixels (nir scene) !! i = Some n → pixels (red scene) !! i = Some r →
         (n = None ∨ r = None ∨ zero_sum n r → pixels ndvi !! i = Some None)
         ∧ (∀ x y, n = Some x → r = Some y → ¬ (x + y == 0)%Q →
              pixels ndvi !! i = Some (Some ((x - y) / (x + y))%Q)))
    ∧ (∀ i n e,
         pixels (nir scene) !! i = Some n → pixels (red_edge scene) !! i = Some e →
         (n = None ∨ e = None ∨ zero_sum n e → pixels ndre !! i = Some None)
         ∧ (∀ x y, n = Some x → e = Some y → ¬ (x + y == 0)%Q →
              pixels ndre !! i = Some (Some ((x - y) / (x + y))%Q)))
    ∧ (∀ i n r b,
         pixels (nir scene) !! i = Some n → pixels (red scene) !! i = Some r →
         pixels (blue scene) !! i = Some b →
         (n = None ∨ r = None ∨ b = None ∨ zero_evi_denominator n r b →
            pixels evi !! i = Some None)
         ∧ (∀ x y z, n = Some x → r = Some y → b = Some z →
              ¬ (evi_denominator x y z == 0)%Q →
              pixels evi !! i = Some (Some ((5 # 2) * (x - y) / evi_denominator x y z)%Q))).
Proof.
  intros Hres Hin.
  destruct (extract_kept_scene _ _ _ _ _ Hres Hin) as (s & _ & _ & ->).
  destruct (add_indices_bands s) as (_ & -> & -> & -> & ->).
  rewrite add_indices_others.
  exists (mkBand (resolution (nir s)) (index_pixels NDVI s)),
         (mkBand (resolution (nir s)) (index_pixels NDRE s)),
         (mkBand (resolution (nir s)) (index_pixels EVI s)).
  split; [by rewrite !lookup_insert_ne, lookup_insert_eq by done|].
  split; [by rewrite lookup_insert_ne, lookup_insert_eq by done|].
  split; [by rewrite lookup_insert_eq|].
  cbn [pixels]. split; [|split].
  - intros i n r Hn Hr. rewrite (index_pixels_NDVI s i n r Hn Hr). split.
    + intros H. by rewrite normalized_difference_nodata.
    + intros x y -> -> Hz. by rewrite normalized_difference_value.
  - intros i n e Hn He. rewrite (index_pixels_NDRE s i n e Hn He). split.
    + intros H. by rewrite normalized_difference_nodata.
    + intros x y -> -> Hz. by rewrite normalized_difference_value.
  - intros i n r b Hn Hr Hb. rewrite (index_pixels_EVI s i n r b Hn Hr Hb). split.
    + intros H. by rewrite enhanced_vegetation_nodata.
    + intros x y z -> -> -> Hz. by rewrite enhanced_vegetation_value.
Qed.

Lemma C4_witness :
  ∃ ndvi, others (add_indices Sample.clear) !! "NDVI" = Some ndvi
    ∧ pixels ndvi !! 2 = Some None ∧ pixels ndvi !! 3 = Some None.
Proof.
  destruct (C4_index_nodata_policy Sample.mapper 20
              (mkMapper
                 [ mkRow "S2A_1" Sample.t1 (Date 2023 5 1) "yes";
                   mkRow "S2B_2" Sample.t2 (Date 2023 5 6) "No [clouds]";
                   mkRow "S2A_3" (DateTime 2023 5 11 10 31 2) (Date 2023 5 11) "yes" ]
                 [(Sample.t1, add_indices Sample.clear)])
              Sample.t1 (add_indices Sample.clear))
    as (ndvi & ndre & evi & Hndvi & _ & _ & Hv & _).
  - vm_compute. reflexivity.
  - cbn [data]. apply list_elem_of_here.
  - exists ndvi. split; [exact Hndvi|]. split.
    + apply (Hv 2 (Some 0%Q) (Some 0%Q)); [reflexivity..|].
      right. right. exists 0%Q, 0%Q. repeat split; reflexivity.
    + apply (Hv 3 (Some (4 # 10)%Q) None); [reflexivity..|].
      right. left. reflexivity.
Defined.

(** ** Scene classification mask *)

Lemma mask_at_validity cloud_classes s i :
  mask_at (validity_mask cloud_classes s) i
  = from_option (pixel_valid cloud_classes) false (pixels (scl s) !! i).
Proof.
  unfold mask_at, validity_mask. rewrite list_lookup_fmap.
  by destruct (pixels (scl s) !! i).
Qed.

(** C8.  The scene classification mask is true at a pixel exactly when
    the pixel carries a class code that is not in the configured invalid
    set; a no-data pixel is invalid whatever the set.  The notebook
    configures the set 3, 8, 9, 10, 11 both for masking and for the cloud
    percentage. *)
Theorem C8_scene_classification_mask (cloud_classes : list Z) (s : RasterScene) (i : nat) :
  (mask_at (validity_mask cloud_classes s) i = true ↔
     ∃ code, pixels (scl s) !! i = Some (Some code) ∧ code ∉ cloud_classes)
  ∧ pixel_valid cloud_classes None = false
  ∧ (∀ code, pixel_valid [3; 8; 9; 10; 11]%Z (Some code) = true ↔
       code ≠ 3%Z ∧ code ≠ 8%Z ∧ code ≠ 9%Z ∧ code ≠ 10%Z ∧ code ≠ 11%Z)
  ∧ (∀ nearest_neighbour continuous_method target_resolution,
       preprocess_sentinel2_scenes nearest_neighbour continuous_method s target_resolution
       = mask_clouds_and_shadows [3; 8; 9; 10; 11]%Z
           (resample nearest_neighbour continuous_method target_resolution s))
  ∧ (∀ thr, classify thr s = RejectedTooCloudy →
       (thr < get_cloudy_pixel_percentage [3; 8; 9; 10; 11]%Z s)%Q).
Proof.
  split; [|split; [done|split; [|split; [done|]]]].
  - rewrite mask_at_validity. destruct (pixels (scl s) !! i) as [[code|]|] eqn:Hp.
    + simpl. rewrite negb_true_iff, bool_decide_eq_false. split.
      * intros Hc. by exists code.
      * by intros (code' & [= <-] & Hc).
    + simpl. split; [done|]. by intros (code & [=] & _).
    + simpl. split; [done|]. by intros (code & [=] & _).
  - intros code. simpl. rewrite negb_true_iff, bool_decide_eq_false.
    rewrite !not_elem_of_cons. split; [tauto|].
    intros (? & ? & ? & ? & ?). repeat split; try done. apply not_elem_of_nil.
  - intros thr Hc. unfold classify in Hc.
    destruct (is_blackfilled s); [done|].
    destruct (Qgt_bool _ _) eqn:Hg; [|done]. by apply Qgt_bool_iff in Hg.
Qed.

(** ** Resampling and masking *)

Lemma lookup_mask_pixels {A} (m : list bool) (ps : list (option A)) i :
  mask_pixels m ps !! i = (λ p, if mask_at m i then p else None) <$> ps !! i.
Proof. unfold mask_pixels. apply list_lookup_imap. Qed.

Lemma masked_pixel_nodata {A} (m : list bool) (b : Band A) i p :
  mask_at m i = false → pixels (mask_band m b) !! i = Some p → p = None.
Proof.
  intros Hm. unfold mask_band. cbn [pixels]. rewrite lookup_mask_pixels, Hm.
  destruct (pixels b !! i); simpl; congruence.
Qed.

(** Masking leaves the mask derived from the classification band as it
    was: a pixel it blanks was invalid and, being no-data now, still is. *)
Lemma validity_mask_masked cloud_classes s :
  validity_mask cloud_classes (mask_clouds_and_shadows cloud_classes s)
  = validity_mask cloud_classes s.
Proof.
  unfold validity_mask at 1. unfold mask_clouds_and_shadows. cbn [scl mask_band pixels].
  apply list_eq. intros i. rewrite list_lookup_fmap, lookup_mask_pixels, mask_at_validity.
  unfold validity_mask. rewrite list_lookup_fmap.
  destruct (pixels (scl s) !! i) as [p|]; [|done]. simpl.
  by destruct (pixel_valid cloud_classes p) eqn:Hp; simpl; rewrite ?Hp.
Qed.

Lemma mask_pixels_idemp {A} (m : list bool) (ps : list (option A)) :
  mask_pixels m (mask_pixels m ps) = mask_pixels m ps.
Proof.
  apply list_eq. intros i. rewrite !lookup_mask_pixels.
  destruct (ps !! i) as [p|]; [|done]. simpl. by destruct (mask_at m i).
Qed.

Lemma mask_band_idemp {A} (m : list bool) (b : Band A) :
  mask_band m (mask_band m b) = mask_band m b.
Proof. unfold mask_band. cbn [resolution pixels]. by rewrite mask_pixels_idemp. Qed.

Lemma mask_clouds_and_shadows_idemp cloud_classes s :
  mask_clouds_and_shadows cloud_classes (mask_clouds_and_shadows cloud_classes s)
  = mask_clouds_and_shadows cloud_classes s.
Proof.
  unfold mask_clouds_and_shadows at 1. rewrite validity_mask_masked.
  unfold mask_clouds_and_shadows. cbn [scl blue red red_edge nir others].
  rewrite !mask_band_idemp. f_equal.
  rewrite <- map_fmap_compose. apply map_fmap_ext. intros name b _. apply mask_band_idemp.
Qed.

Section ResamplingFacts.

Context (nearest_neighbour : Z → Z → list (option Z) → list (option Z)).
Context (continuous_method : Z → Z → list (option Q) → list (option Q)).

Lemma resolution_resample_band {A} (rule : Z → Z → list (option A) → list (option A)) t b :
  resolution (resample_band rule t b) = t.
Proof. unfold resample_band. by case_decide. Qed.

Lemma resample_band_at_target {A} (rule : Z → Z → list (option A) → list (option A)) t b :
  resolution b = t → resample_band rule t b = b.
Proof. intros H. unfold resample_band. by rewrite decide_True. Qed.

Lemma resample_masked_band {A} (rule : Z → Z → list (option A) → list (option A)) m t b :
  resample_band rule t (mask_band m (resample_band rule t b))
  = mask_band m (resample_band rule t b).
Proof. apply resample_band_at_target. cbn [mask_band resolution]. apply resolution_resample_band. Qed.

(** A scene that went through the stage is at the target resolution in
    every band, so resampling it again changes nothing. *)
Lemma resample_preprocessed s t :
  resample nearest_neighbour continuous_method t
    (preprocess_sentinel2_scenes nearest_neighbour continuous_method s t)
  = preprocess_sentinel2_scenes nearest_neighbour continuous_method s t.
Proof.
  unfold preprocess_sentinel2_scenes, mask_clouds_and_shadows.
  set (m := validity_mask _ _).
  unfold resample at 1. cbn [scl blue red red_edge nir others].
  unfold resample. cbn [scl blue red red_edge nir others].
  rewrite !resample_masked_band. f_equal.
  rewrite <- !map_fmap_compose. apply map_fmap_ext. intros name b _.
  apply resample_masked_band.
Qed.

End ResamplingFacts.

(** C5.  After the resampling and masking stage, at every pixel where the
    validity mask of the scene is false the classification band and every
    reflectance band hold the no-data sentinel.  The mask is the one the
    stage applied: masking does not change it. *)
Theorem C5_masking_postcondition
    (nearest_neighbour : Z → Z → list (option Z) → list (option Z))
    (continuous_method : Z → Z → list (option Q) → list (option Q))
    (ds : RasterScene) (target_resolution : Z) :
  let out := preprocess_sentinel2_scenes nearest_neighbour continuous_method
               ds target_resolution in
  validity_mask [3; 8; 9; 10; 11]%Z out
  = validity_mask [3; 8; 9; 10; 11]%Z
      (resample nearest_neighbour continuous_method target_resolution ds)
  ∧ ∀ i, mask_at (validity_mask [3; 8; 9; 10; 11]%Z out) i = false →
      (∀ p, pixels (scl out) !! i = Some p → p = None)
      ∧ ∀ b, value_band out b → ∀ p, pixels b !! i = Some p → p = None.
Proof.
  intros out. unfold out, preprocess_sentinel2_scenes.
  rewrite validity_mask_masked. split; [done|].
  set (r := resample _ _ _ _). set (m := validity_mask _ r).
  intros i Hm. unfold mask_clouds_and_shadows. fold m. unfold value_band.
  cbn [scl blue red red_edge nir others]. split.
  - intros p. by apply masked_pixel_nodata.
  - intros b [->|[->|[->|[->|[name Hb]]]]] p; try by apply masked_pixel_nodata.
    rewrite lookup_fmap in Hb. destruct (others r !! name) as [b0|]; [|done].
    injection Hb as <-. by apply masked_pixel_nodata.
Qed.

(** C6.  The resampling and masking stage is idempotent: applied to its
    own output it returns that output unchanged. *)
Theorem C6_preprocess_idempotent
    (nearest_neighbour : Z → Z → list (option Z) → list (option Z))
    (continuous_method : Z → Z → list (option Q) → list (option Q))
    (ds : RasterScene) (target_resolution : Z) :
  preprocess_sentinel2_scenes nearest_neighbour continuous_method
    (preprocess_sentinel2_scenes nearest_neighbour continuous_method ds target_resolution)
    target_resolution
  = preprocess_sentinel2_scenes nearest_neighbour continuous_method ds target_resolution.
Proof.
  unfold preprocess_sentinel2_scenes at 1. rewrite resample_preprocessed.
  unfold preprocess_sentinel2_scenes. apply mask_clouds_and_shadows_idemp.
Qed.

Lemma C5_witness :
  mask_at (validity_mask [3; 8; 9; 10; 11]%Z
             (preprocess_sentinel2_scenes (λ _ _ g, g) (λ _ _ g, g) Sample.raw 10)) 1 = false
  ∧ ∃ p, pixels (red (preprocess_sentinel2_scenes (λ _ _ g, g) (λ _ _ g, g) Sample.raw 10)) !! 1
         = Some p ∧ p = None.
Proof.
  split; [vm_compute; reflexivity|].
  exists None. split; [vm_compute; reflexivity|].
  destruct (C5_masking_postcondition (λ _ _ g, g) (λ _ _ g, g) Sample.raw 10) as [_ H].
  destruct (H 1) as [_ Hb].
  - vm_compute. reflexivity.
  - apply (Hb (red (preprocess_sentinel2_scenes (λ _ _ g, g) (λ _ _ g, g) Sample.raw 10))).
    + right. left. reflexivity.
    + vm_compute. reflexivity.
Defined.

(** ** Export, plotting and the empty series *)

(** A run on an empty scene collection ends normally with an empty kept
    series and an empty table, and asks for no export and no plot; the
    same holds whenever no scene was loaded. *)
Lemma empty_collection_run (shapefile_name : string) :
  process_shapefile shapefile_name (mkMapper [] [])
  = Some (mkMapper [] [],
          [ Print ("Processing " +:+ shapefile_name);
            Print ("No data available for " +:+ shapefile_name) ])
  ∧ ∀ md, ∃ res events,
      process_shapefile shapefile_name (mkMapper md []) = Some (res, events)
      ∧ data res = []
      ∧ length (metadata res) = length md
      ∧ Forall (λ e, is_export e = false ∧ is_plot e = false) events.
Proof.
  split; [reflexivity|].
  intros md. eexists _, _. split; [reflexivity|]. cbn [data metadata].
  split; [done|]. split.
  - unfold set_column_scene_used. by rewrite length_fmap.
  - by repeat constructor.
Qed.

(** C7.  When the catalog returns zero candidate scenes the mapper holds no
    scene collection at all, and the run does not reach its empty-series
    branch: [extract_s2_data] raises on its unguarded loop, so the
    shapefile ends with an exception instead of the message that no data is
    available.  Had the loader left an empty collection, the run would have
    ended normally with that message. *)
Theorem C7_zero_candidates_raise (shapefile_name : string) (thr : Q) :
  extract_s2_data_loaded (mkLoaded [] None) thr = None
  ∧ process_shapefile_loaded shapefile_name (mkLoaded [] None) = None
  ∧ process_shapefile_loaded shapefile_name (mkLoaded [] (Some []))
    = Some (mkMapper [] [],
            [ Print ("Processing " +:+ shapefile_name);
              Print ("No data available for " +:+ shapefile_name) ]).
Proof. by repeat split. Qed.

Lemma lookup_join_imap {A B} (f : nat → A → list B) (n : nat) (l : list A) i j x :
  (∀ i x, length (f i x) = n) → l !! i = Some x → j < n →
  mjoin (imap f l) !! (i * n + j) = f i x !! j.
Proof.
  intros Hlen Hi Hj.
  assert (HF : Forall (λ k, length k = n) (imap f l)).
  { apply Forall_forall. intros k Hk.
    apply list_elem_of_lookup in Hk as [i' Hk].
    rewrite list_lookup_imap in Hk. destruct (l !! i'); [|done].
    injection Hk as <-. apply Hlen. }
  destruct (f i x !! j) as [y|] eqn:Hy.
  - apply join_lookup_Some_same_length'; [done..|].
    exists (f i x). split; [|done]. by rewrite list_lookup_imap, Hi.
  - apply lookup_ge_None in Hy. rewrite Hlen in Hy. lia.
Qed.

Lemma sensing_date_string_lookup dates idx :
  sensing_date_string dates idx =
    match dates !! idx with Some d => strftime_date d | None => "No Date" end.
Proof.
  unfold sensing_date_string. case_bool_decide as Hlt.
  - apply lookup_lt_is_Some in Hlt as [d Hd]. by rewrite Hd.
  - assert (Hn : dates !! idx = None) by (apply lookup_ge_None; lia). by rewrite Hn.
Qed.

(** C9.  Export and plotting attach to the scene at position [idx] of the
    kept series the date at position [idx] of the sensing dates of the rows
    marked yes, and the text No Date from the end of that list on.  The
    label depends on the position alone, not on the scene identifier. *)
Theorem C9_date_label_by_position (scene : RasterScene) (shapefile_name : string)
    (metadata : list MetadataRow) (scene_id : datetime) (res : SceneCollection)
    (idx : nat) (id_at : datetime) (scene_at : RasterScene) :
  res !! idx = Some (id_at, scene_at) →
  let dates := sensing_date <$> filter (λ r, scene_used r = "yes") metadata in
  let label := match dates !! idx with
               | Some d => strftime_date d
               | None => "No Date"
               end in
  (length dates ≤ idx → label = "No Date")
  ∧ (∀ j index, indices !! j = Some index →
       save_scene_as_geotiff scene shapefile_name metadata scene_id res !! (idx * 3 + j)
       = Some (ToRasterio id_at (base_paths index) shapefile_name
                 (shapefile_name +:+ "_" +:+ index +:+ "_" +:+ label +:+ ".tiff") index))
  ∧ plot_scenes res shapefile_name metadata save_path scene_id !! (idx * 4)
    = Some (Figtext idx label).
Proof.
  intros Hidx dates label. split; [|split].
  - intros Hge. unfold label. by rewrite (proj2 (lookup_ge_None dates idx) Hge).
  - intros j index Hj. unfold save_scene_as_geotiff.
    assert (j < 3) by (apply lookup_lt_Some in Hj; exact Hj).
    rewrite (lookup_join_imap _ 3 res idx j (id_at, scene_at)); [|by intros ? []|done..].
    cbn beta iota. rewrite list_lookup_fmap, Hj. cbn [fmap option_fmap option_map].
    unfold sensing_dates_with_scene_used_list. fold dates.
    by rewrite sensing_date_string_lookup.
  - unfold plot_scenes. rewrite lookup_app_l.
    + replace (idx * 4) with (idx * 4 + 0) by lia.
      rewrite (lookup_join_imap _ 4 res idx 0 (id_at, scene_at)); [|by intros ? []|done|lia].
      cbn beta iota. cbn [lookup list_lookup]. 
      unfold sensing_dates_with_scene_used_list. fold dates.
      by rewrite sensing_date_string_lookup.
    + rewrite length_join.
      apply lookup_lt_Some in Hidx.
      assert (Hs : ∀ (f : nat → datetime * RasterScene → list event) k,
                 (∀ i x, length (f i x) = 4) →
                 sum_list (length <$> imap f k) = 4 * length k).
      { intros f k. revert f. induction k as [|x k IH]; intros f Hf; [done|].
        rewrite imap_cons, fmap_cons. cbn [sum_list sum_list_with length].
        rewrite Hf, IH by (intros; apply Hf). unfold id. lia. }
      rewrite Hs by (by intros ? []). lia.
Qed.

Lemma C9_witness :
  save_scene_as_geotiff (add_indices Sample.clear) "field"
    [ mkRow "S2A_1" Sample.t1 (Date 2023 5 1) "yes";
      mkRow "S2B_2" Sample.t2 (Date 2023 5 6) "No [clouds]" ]
    Sample.t1
    [(Sample.t1, add_indices Sample.clear); (Sample.t3, add_indices Sample.clear)]
    !! (1 * 3 + 0)
  = Some (ToRasterio Sample.t3 (base_paths "ndvi") "field" "field_ndvi_No Date.tiff" "ndvi").
Proof.
  destruct (C9_date_label_by_position (add_indices Sample.clear) "field"
              [ mkRow "S2A_1" Sample.t1 (Date 2023 5 1) "yes";
                mkRow "S2B_2" Sample.t2 (Date 2023 5 6) "No [clouds]" ]
              Sample.t1
              [(Sample.t1, add_indices Sample.clear); (Sample.t3, add_indices Sample.clear)]
              1 Sample.t3 (add_indices Sample.clear))
    as (_ & Hexport & _).
  - reflexivity.
  - apply (Hexport 0 "ndvi"). reflexivity.
Defined.

(** The labels follow positions, not scenes: when the first of two kept
    scenes belongs to a row that still reads yes for a removed scene, the
    dates shift. *)
Example labels_are_positional :
  option_map snd (process_shapefile "field"
    (mkMapper
       [ mkRow "S2A_0" (DateTime 2023 4 26 10 31 2) (Date 2023 4 26) "";
         mkRow "S2A_1" Sample.t1 (Date 2023 5 1) "" ]
       [ (DateTime 2023 4 26 10 30 58, Sample.black); (Sample.t1, Sample.clear) ]))
  = Some
      [ Print "Processing field";
        ToRasterio Sample.t1 (base_paths "ndvi") "field" "field_ndvi_2023-04-26.tiff" "ndvi";
        ToRasterio Sample.t1 (base_paths "ndre") "field" "field_ndre_2023-04-26.tiff" "ndre";
        ToRasterio Sample.t1 (base_paths "evi") "field" "field_evi_2023-04-26.tiff" "evi";
        Figtext 0 "2023-04-26";
        PlotBand Sample.t1 "NDVI" 0 0;
        PlotBand Sample.t1 "NDRE" 1 0;
        PlotBand Sample.t1 "EVI" 2 0;
        Savefig "png" "field.png";
        Savefig "pdf" "field.pdf" ].
Proof. vm_compute. reflexivity. Qed.

(** ** The disposition of every candidate *)

Lemma filter_none {A} (P : A → Prop) `{!∀ x, Decision (P x)} (l : list A) :
  (∀ x, x ∈ l → ¬ P x) → filter P l = [].
Proof.
  induction l as [|x l IH]; intros Hl; [done|].
  rewrite filter_cons_False by (apply Hl; by left).
  apply IH. intros y Hy. apply Hl. by right.
Qed.

Lemma rejected_app thr l1 l2 :
  rejected thr (l1 ++ l2) = rejected thr l1 ++ rejected thr l2.
Proof. unfold rejected. apply filter_app. Qed.

(** The row of a rejected scene shows that scene's label unless a later
    rejected scene of the same minute overwrote it. *)
Lemma final_row_last_rejection thr (l1 l2 : SceneCollection) scene_id scene r :
  classify thr scene ≠ Used →
  minute_match r scene_id →
  (∀ e, e ∈ l2 → classify thr e.2 ≠ Used → ¬ minute_match r e.1) →
  scene_used (final_row thr (l1 ++ (scene_id, scene) :: l2)
                (mkRow (product_uri r) (sensing_time r) (sensing_date r) "yes"))
  = status_label (classify thr scene).
Proof.
  intros Hc Hm Hlater. rewrite final_row_scene_used, rejected_app.
  rewrite rejected_cons_other by exact Hc.
  rewrite filter_app, filter_cons_True
    by (rewrite row_matches_set_yes; by apply row_matches_iff).
  rewrite (filter_none _ (rejected thr l2)).
  - by rewrite last_snoc.
  - intros e He. apply list_elem_of_filter in He as [Hc' He].
    rewrite row_matches_set_yes, row_matches_iff. by apply Hlater.
Qed.

Lemma recorded_rejection m thr (l1 l2 : SceneCollection) scene_id scene :
  NoDup (scene_ids (data m)) →
  data m = l1 ++ (scene_id, scene) :: l2 →
  classify thr scene ≠ Used →
  recorded m (mkMapper (marked thr (data m) (set_column_scene_used "yes" (metadata m)))
                       (kept thr (data m)))
           l2 scene_id (status_label (classify thr scene)).
Proof.
  intros Hnd Hdata Hc i r Hi Hm Hlater. cbn [metadata data] in *.
  exists (final_row thr (data m)
            (mkRow (product_uri r) (sensing_time r) (sensing_date r) "yes")).
  split.
  { rewrite marked_rows. unfold set_column_scene_used.
    by rewrite !list_lookup_fmap, Hi. }
  rewrite Hdata. apply final_row_last_rejection; [done..|].
  intros e He Hce. apply Hlater; [done|].
  apply rejected_not_kept; [done| |done].
  rewrite Hdata. apply elem_of_app. right. by right.
Qed.

Lemma recorded_used m thr scene_id :
  NoDup (scene_ids (data m)) →
  recorded m (mkMapper (marked thr (data m) (set_column_scene_used "yes" (metadata m)))
                       (kept thr (data m)))
           (data m) scene_id "yes".
Proof.
  intros Hnd i r Hi Hm Hnone. cbn [metadata data] in *.
  exists (final_row thr (data m)
            (mkRow (product_uri r) (sensing_time r) (sensing_date r) "yes")).
  split.
  { rewrite marked_rows. unfold set_column_scene_used.
    by rewrite !list_lookup_fmap, Hi. }
  rewrite final_row_scene_used.
  destruct (last _) as [e|] eqn:Hl; [|done]. exfalso.
  apply last_filter_elem in Hl as [Hme He].
  rewrite row_matches_set_yes, row_matches_iff in Hme.
  apply list_elem_of_filter in He as [Hce He].
  apply (Hnone e He); [|done]. by apply rejected_not_kept.
Qed.

(** C1.  On any collection, every candidate scene gets its disposition by
    the first matching rule.  A scene whose every pixel in every band is
    no-data is removed and recorded as blackfill, whatever its cloud share;
    otherwise, when the invalid fraction of the parcel times 100 is
    strictly above the threshold, it is removed and recorded as too cloudy;
    otherwise, in particular at equality, it stays in the kept series with
    its indices and its row reads yes. *)
Theorem C1_quality_filter_first_match (m : Mapper) (thr : Q) :
  NoDup (scene_ids (data m)) →
  ∃ res, extract_s2_data m thr = Some res
    ∧ ∀ l1 scene_id scene l2, data m = l1 ++ (scene_id, scene) :: l2 →
        (blackfill scene →
           (scene_id ∉ scene_ids (data res))
           ∧ recorded m res l2 scene_id "No [blackfill]")
        ∧ (¬ blackfill scene →
           (thr < invalid_fraction [3; 8; 9; 10; 11]%Z scene * 100)%Q →
           (scene_id ∉ scene_ids (data res))
           ∧ recorded m res l2 scene_id "No [clouds]")
        ∧ (¬ blackfill scene →
           (invalid_fraction [3; 8; 9; 10; 11]%Z scene * 100 <= thr)%Q →
           (scene_id, calc_si EVI (calc_si NDRE (calc_si NDVI scene))) ∈ data res
           ∧ recorded m res (data m) scene_id "yes").
Proof.
  intros Hnd. eexists. split; [by apply extract_s2_data_spec|].
  intros l1 scene_id scene l2 Hdata.
  assert (He : (scene_id, scene) ∈ data m).
  { rewrite Hdata. apply elem_of_app. right. by left. }
  destruct (classify_first_match thr scene) as (Hb & Hc & Hu).
  cbn [data]. split; [|split].
  - intros Hbf. apply Hb in Hbf.
    assert (Hne : classify thr scene ≠ Used) by (by rewrite Hbf).
    split; [by apply (rejected_not_kept thr (data m) (scene_id, scene))|].
    change "No [blackfill]" with (status_label RejectedBlackfill). rewrite <- Hbf.
    by apply (recorded_rejection m thr l1 l2).
  - intros Hnb Hgt. assert (Hcl : classify thr scene = RejectedTooCloudy) by (by apply Hc).
    assert (Hne : classify thr scene ≠ Used) by (by rewrite Hcl).
    split; [by apply (rejected_not_kept thr (data m) (scene_id, scene))|].
    change "No [clouds]" with (status_label RejectedTooCloudy). rewrite <- Hcl.
    by apply (recorded_rejection m thr l1 l2).
  - intros Hnb Hle. assert (Hus : classify thr scene = Used) by (by apply Hu).
    split; [|by apply recorded_used].
    unfold kept.
    apply (list_elem_of_fmap_2 (λ e, (e.1, add_indices e.2)) _ (scene_id, scene)).
    by apply list_elem_of_filter.
Qed.

Lemma C1_witness :
  ∃ res, extract_s2_data Sample.mapper 20 = Some res
    ∧ ∀ l1 scene_id scene l2, data Sample.mapper = l1 ++ (scene_id, scene) :: l2 →
        (blackfill scene →
           (scene_id ∉ scene_ids (data res))
           ∧ recorded Sample.mapper res l2 scene_id "No [blackfill]")
        ∧ (¬ blackfill scene →
           (20 < invalid_fraction [3; 8; 9; 10; 11]%Z scene * 100)%Q →
           (scene_id ∉ scene_ids (data res))
           ∧ recorded Sample.mapper res l2 scene_id "No [clouds]")
        ∧ (¬ blackfill scene →
           (invalid_fraction [3; 8; 9; 10; 11]%Z scene * 100 <= 20)%Q →
           (scene_id, calc_si EVI (calc_si NDRE (calc_si NDVI scene))) ∈ data res
           ∧ recorded Sample.mapper res (data Sample.mapper) scene_id "yes").
Proof.
  apply (C1_quality_filter_first_match Sample.mapper 20).
  distinct_ids.
Defined.

(** * Further properties of the notebook's code *)

(** ** What [extract_s2_data] returns *)

(** X1.  With distinct timestamps [extract_s2_data] raises no [KeyError]:
    it returns the collection of the scenes that pass both checks, in their
    order and each with its indices, and a candidate's timestamp is still a
    key of the collection exactly when the candidate passed. *)
Theorem X1_extract_returns_the_usable_scenes (m : Mapper) (thr : Q) :
  NoDup (scene_ids (data m)) →
  ∃ res, extract_s2_data m thr = Some res
    ∧ data res =
        (λ e, (e.1, calc_si EVI (calc_si NDRE (calc_si NDVI e.2))))
          <$> filter (λ e, classify thr e.2 = Used) (data m)
    ∧ ∀ e, e ∈ data m → (e.1 ∈ scene_ids (data res) ↔ classify thr e.2 = Used).
Proof.
  intros Hnd. eexists. split; [by apply extract_s2_data_spec|]. cbn [data].
  split; [done|]. intros e He. split.
  - intros Hin. destruct (decide (classify thr e.2 = Used)) as [|Hc]; [done|].
    by destruct (rejected_not_kept thr (data m) e Hnd He Hc).
  - intros Hc. rewrite scene_ids_kept. unfold scene_ids.
    apply list_elem_of_fmap_2. by apply list_elem_of_filter.
Qed.

Lemma X1_witness :
  ∃ res, extract_s2_data Sample.mapper 20 = Some res
    ∧ data res =
        (λ e, (e.1, calc_si EVI (calc_si NDRE (calc_si NDVI e.2))))
          <$> filter (λ e, classify 20 e.2 = Used) (data Sample.mapper)
    ∧ ∀ e, e ∈ data Sample.mapper →
        (e.1 ∈ scene_ids (data res) ↔ classify 20 e.2 = Used).
Proof.
  apply (X1_extract_returns_the_usable_scenes Sample.mapper 20).
  distinct_ids.
Defined.

(** X2.  The marks are written in collection order and a later mark
    overwrites an earlier one: a row ends with the label of the last
    rejected scene that agrees with it to the minute, whatever rejected
    scenes before it matched the row too. *)
Theorem X2_last_matching_rejection_wins (m : Mapper) (thr : Q)
    (l1 l2 : SceneCollection) (e : datetime * RasterScene) (i : nat) (r : MetadataRow) :
  NoDup (scene_ids (data m)) →
  data m = l1 ++ e :: l2 →
  classify thr e.2 ≠ Used →
  metadata m !! i = Some r →
  minute_match r e.1 →
  (∀ e', e' ∈ l2 → classify thr e'.2 ≠ Used → ¬ minute_match r e'.1) →
  ∃ res r', extract_s2_data m thr = Some res
    ∧ metadata res !! i = Some r'
    ∧ scene_used r' = status_label (classify thr e.2).
Proof.
  intros Hnd Hdata Hc Hi Hm Hlater. destruct e as [k s]. cbn [fst snd] in *.
  set (r0 := mkRow (product_uri r) (sensing_time r) (sensing_date r) "yes").
  exists (mkMapper (marked thr (data m) (set_column_scene_used "yes" (metadata m)))
                   (kept thr (data m))), (final_row thr (data m) r0).
  split; [by apply extract_s2_data_spec|]. cbn [metadata]. split.
  { rewrite marked_rows. unfold set_column_scene_used.
    by rewrite !list_lookup_fmap, Hi. }
  rewrite final_row_scene_used, Hdata, rejected_app.
  rewrite rejected_cons_other by exact Hc.
  rewrite filter_app, filter_cons_True
    by (unfold r0; rewrite row_matches_set_yes; by apply row_matches_iff).
  rewrite (filter_none _ (rejected thr l2)).
  - by rewrite last_snoc.
  - intros e' He'. apply list_elem_of_filter in He' as [Hc' He'].
    unfold r0. rewrite row_matches_set_yes, row_matches_iff. by apply Hlater.
Qed.

Lemma X2_witness :
  ∃ res r', extract_s2_data same_minute_pair 20 = Some res
    ∧ metadata res !! 0 = Some r'
    ∧ scene_used r' = status_label (classify 20 Sample.cloudy).
Proof.
  apply (X2_last_matching_rejection_wins same_minute_pair 20
           [(DateTime 2023 6 1 10 20 5, Sample.black)] []
           (DateTime 2023 6 1 10 20 40, Sample.cloudy) 0
           (mkRow "S2A_7" (DateTime 2023 6 1 10 20 0) (Date 2023 6 1) "")).
  - distinct_ids.
  - reflexivity.
  - vm_compute. discriminate.
  - reflexivity.
  - vm_compute. reflexivity.
  - intros e' He'. by apply elem_of_nil in He'.
Defined.

(** X3.  When every scene passes both checks nothing is deleted and no
    row is marked: every row reads yes, whatever the column held before,
    and the collection comes back whole, each scene with its indices. *)
Theorem X3_nothing_rejected (m : Mapper) (thr : Q) :
  (∀ e, e ∈ data m → classify thr e.2 = Used) →
  extract_s2_data m thr =
    Some (mkMapper
            ((λ r, mkRow (product_uri r) (sensing_time r) (sensing_date r) "yes")
               <$> metadata m)
            ((λ e, (e.1, calc_si EVI (calc_si NDRE (calc_si NDVI e.2)))) <$> data m)).
Proof.
  intros Hall. unfold extract_s2_data. rewrite quality_loop_spec.
  assert (Hr : rejected thr (data m) = []).
  { unfold rejected. apply filter_none. intros e He Hc. by apply Hc, Hall. }
  unfold marked. rewrite Hr. cbn [scene_ids fmap list_fmap app foldl del_scenes mbind option_bind].
  do 2 f_equal. unfold processed. apply list_fmap_ext. intros i e Hi.
  rewrite decide_True; [done|]. apply Hall. by eapply list_elem_of_lookup_2.
Qed.

Lemma X3_witness :
  extract_s2_data all_clear 20 =
    Some (mkMapper
            ((λ r, mkRow (product_uri r) (sensing_time r) (sensing_date r) "yes")
               <$> metadata all_clear)
            ((λ e, (e.1, calc_si EVI (calc_si NDRE (calc_si NDVI e.2))))
               <$> data all_clear)).
Proof.
  apply (X3_nothing_rejected all_clear 20).
  intros e He. unfold all_clear in He. cbn [data] in He.
  apply elem_of_cons in He as [->|He]; [vm_compute; reflexivity|].
  apply elem_of_cons in He as [->|He]; [vm_compute; reflexivity|].
  by apply elem_of_nil in He.
Defined.

(** X4.  When every loaded scene is rejected the run still ends normally:
    the collection comes back empty, the table keeps its rows, and beyond
    the two messages nothing is requested, neither export nor plot. *)
Theorem X4_everything_rejected (shapefile_name : string) (m : Mapper) :
  NoDup (scene_ids (data m)) →
  (∀ e, e ∈ data m → classify 20 e.2 ≠ Used) →
  ∃ res, process_shapefile shapefile_name m
         = Some (res, [ Print ("Processing " +:+ shapefile_name);
                        Print ("No data available for " +:+ shapefile_name) ])
    ∧ data res = []
    ∧ length (metadata res) = length (metadata m).
Proof.
  intros Hnd Hall. unfold process_shapefile.
  rewrite extract_s2_data_spec by done. cbn [mbind option_bind data metadata].
  assert (Hk : kept 20 (data m) = []).
  { unfold kept. rewrite filter_none; [done|]. intros e He Hc. by apply (Hall e). }
  rewrite Hk. eexists. split; [reflexivity|]. cbn [data metadata]. split; [done|].
  rewrite marked_rows. unfold set_column_scene_used. by rewrite !length_fmap.
Qed.

Lemma X4_witness :
  ∃ res, process_shapefile "field" none_usable
         = Some (res, [ Print ("Processing " +:+ "field");
                        Print ("No data available for " +:+ "field") ])
    ∧ data res = []
    ∧ length (metadata res) = length (metadata none_usable).
Proof.
  apply (X4_everything_rejected "field" none_usable).
  - distinct_ids.
  - intros e He. unfold none_usable in He. cbn [data] in He.
    apply elem_of_cons in He as [->|He]; [vm_compute; discriminate|].
    apply elem_of_cons in He as [->|He]; [vm_compute; discriminate|].
    by apply elem_of_nil in He.
Defined.

(** ** The threshold *)

Lemma classify_Used_mono thr thr' s :
  (thr <= thr')%Q → classify thr s = Used → classify thr' s = Used.
Proof.
  intros Hle. unfold classify. destruct (is_blackfilled s); [done|].
  destruct (Qgt_bool _ thr) eqn:H1; [done|]. intros _.
  apply Qgt_bool_false_iff in H1.
  assert (H2 : Qgt_bool (get_cloudy_pixel_percentage [3; 8; 9; 10; 11]%Z s) thr' = false).
  { apply Qgt_bool_false_iff. by eapply Qle_trans. }
  by rewrite H2.
Qed.

Lemma classify_blackfill_any_threshold thr thr' s :
  classify thr s = RejectedBlackfill ↔ classify thr' s = RejectedBlackfill.
Proof.
  unfold classify. destruct (is_blackfilled s); [done|].
  by destruct (Qgt_bool _ thr), (Qgt_bool _ thr').
Qed.

Lemma filter_sublist_impl {A} (P Q : A → Prop)
    `{!∀ x, Decision (P x)} `{!∀ x, Decision (Q x)} (l : list A) :
  (∀ x, P x → Q x) → filter P l `sublist_of` filter Q l.
Proof.
  intros HPQ. induction l as [|x l IH]; [done|].
  rewrite !filter_cons. destruct (decide (P x)) as [HP|HP].
  - rewrite decide_True by auto. by apply sublist_skip.
  - destruct (decide (Q x)); [by apply sublist_cons|done].
Qed.

(** X5.  The comparison with the threshold is monotone: raising the
    threshold never drops a scene that was kept before, so the collection
    kept under the lower threshold is a subsequence of the one kept under
    the higher; the blackfill rejections do not depend on the threshold. *)
Theorem X5_threshold_monotone (m : Mapper) (thr thr' : Q) :
  (thr <= thr')%Q →
  NoDup (scene_ids (data m)) →
  ∃ res res', extract_s2_data m thr = Some res
    ∧ extract_s2_data m thr' = Some res'
    ∧ data res `sublist_of` data res'
    ∧ with_disposition RejectedBlackfill thr (data m)
      = with_disposition RejectedBlackfill thr' (data m).
Proof.
  intros Hle Hnd. eexists _, _.
  split; [by apply extract_s2_data_spec|].
  split; [by apply extract_s2_data_spec|]. cbn [data]. split.
  - unfold kept. apply fmap_sublist, filter_sublist_impl.
    intros e. by apply classify_Used_mono.
  - unfold with_disposition. apply list_filter_iff.
    intros e. apply classify_blackfill_any_threshold.
Qed.

Lemma X5_witness :
  ∃ res res', extract_s2_data Sample.mapper 20 = Some res
    ∧ extract_s2_data Sample.mapper 30 = Some res'
    ∧ data res `sublist_of` data res'
    ∧ with_disposition RejectedBlackfill 20 (data Sample.mapper)
      = with_disposition RejectedBlackfill 30 (data Sample.mapper).
Proof.
  apply (X5_threshold_monotone Sample.mapper 20 30).
  - vm_compute. discriminate.
  - distinct_ids.
Defined.

(** ** The row selector *)

(** X6.  The selector that marks a row compares timestamps to the minute:
    on Python timestamps it holds exactly when row and scene agree in year,
    month, day, hour and minute, whatever their seconds; the slice to
    sixteen characters removes nothing. *)
Theorem X6_selector_compares_to_the_minute (scene_id : datetime) (r : MetadataRow) :
  valid_datetime (sensing_time r) → valid_datetime scene_id →
  (row_matches scene_id r = true ↔ same_minute (sensing_time r) scene_id)
  ∧ slice_0_16 (strftime_minute scene_id) = strftime_minute scene_id.
Proof.
  intros Hr Hs. split; [|apply slice_strftime_minute].
  rewrite row_matches_iff. by apply minute_match_same_minute.
Qed.

Lemma X6_witness :
  (row_matches (DateTime 2023 6 1 10 20 40)
     (mkRow "S2A_7" (DateTime 2023 6 1 10 20 0) (Date 2023 6 1) "") = true
   ↔ same_minute (DateTime 2023 6 1 10 20 0) (DateTime 2023 6 1 10 20 40))
  ∧ slice_0_16 (strftime_minute (DateTime 2023 6 1 10 20 40))
    = strftime_minute (DateTime 2023 6 1 10 20 40).
Proof.
  apply (X6_selector_compares_to_the_minute (DateTime 2023 6 1 10 20 40)
           (mkRow "S2A_7" (DateTime 2023 6 1 10 20 0) (Date 2023 6 1) "")).
  - unfold valid_datetime. cbn. lia.
  - unfold valid_datetime. cbn. lia.
Defined.

(** ** The requests of one shapefile *)

Lemma length_join_imap {A B} (f : nat → A → list B) (n : nat) (l : list A) :
  (∀ i x, length (f i x) = n) → length (mjoin (imap f l)) = n * length l.
Proof.
  intros Hf. revert f Hf. induction l as [|x l IH]; intros f Hf.
  - cbn. lia.
  - rewrite imap_cons. cbn [mjoin list_join]. rewrite length_app, Hf.
    rewrite IH by (intros; apply Hf). cbn [length]. lia.
Qed.

Lemma Forall_join_imap {A B} (P : B → Prop) (f : nat → A → list B) (l : list A) :
  (∀ i x, Forall P (f i x)) → Forall P (mjoin (imap f l)).
Proof.
  intros Hf. revert f Hf. induction l as [|x l IH]; intros f Hf; [constructor|].
  rewrite imap_cons. cbn [mjoin list_join]. apply Forall_app. split; [apply Hf|].
  apply IH. intros. apply Hf.
Qed.

Lemma length_save_scene_as_geotiff scene shapefile_name metadata scene_id res :
  length (save_scene_as_geotiff scene shapefile_name metadata scene_id res)
  = 3 * length res.
Proof. unfold save_scene_as_geotiff. apply length_join_imap. by intros ? []. Qed.

Lemma save_scene_as_geotiff_exports scene shapefile_name metadata scene_id res :
  Forall (λ e, is_export e = true ∧ is_plot e = false)
    (save_scene_as_geotiff scene shapefile_name metadata scene_id res).
Proof.
  unfold save_scene_as_geotiff. apply Forall_join_imap. intros i [k s].
  by repeat constructor.
Qed.

Lemma length_plot_scenes res shapefile_name metadata path scene_id :
  length (plot_scenes res shapefile_name metadata path scene_id) = 4 * length res + 2.
Proof.
  unfold plot_scenes. rewrite length_app, (length_join_imap _ 4) by (by intros ? []).
  cbn [length]. lia.
Qed.

Lemma plot_scenes_plots res shapefile_name metadata path scene_id :
  Forall (λ e, is_export e = false ∧ is_plot e = true)
    (plot_scenes res shapefile_name metadata path scene_id).
Proof.
  unfold plot_scenes. apply Forall_app. split.
  - apply Forall_join_imap. intros i [k s]. by repeat constructor.
  - by repeat constructor.
Qed.

Lemma filter_all {A} (P : A → Prop) `{!∀ x, Decision (P x)} (l : list A) :
  Forall P l → filter P l = l.
Proof.
  induction 1 as [|x l Hx _ IH]; [done|].
  rewrite filter_cons_True by done. by f_equal.
Qed.

Lemma length_join_const {A} (n : nat) (ls : list (list A)) :
  Forall (λ l, length l = n) ls → length (mjoin ls) = n * length ls.
Proof.
  induction 1 as [|l ls Hl _ IH]; [cbn; lia|].
  change (mjoin (l :: ls)) with (l ++ mjoin ls).
  rewrite length_app, Hl, IH. cbn [length]. lia.
Qed.

(** X7.  For a kept series of n scenes one shapefile issues 3·n·n export
    requests, because the export routine writes the whole series and is
    called once per scene, and, when n is not zero, 4·n + 2 plot requests:
    a title and three bands per scene and the two figure files. *)
Theorem X7_requests_of_one_shapefile (shapefile_name : string) (m : Mapper) :
  NoDup (scene_ids (data m)) →
  ∃ res events, process_shapefile shapefile_name m = Some (res, events)
    ∧ length (filter (λ e, is_export e = true) events)
      = 3 * length (data res) * length (data res)
    ∧ length (filter (λ e, is_plot e = true) events)
      = (if decide (data res = []) then 0 else 4 * length (data res) + 2).
Proof.
  intros Hnd. unfold process_shapefile.
  rewrite extract_s2_data_spec by done. cbn [mbind option_bind data metadata].
  eexists _, _. split; [reflexivity|]. cbn [data].
  set (md := marked _ _ _). set (res := kept 20 (data m)).
  set (exports := mjoin _).
  assert (Hlen : length exports = 3 * length res * length res).
  { unfold exports. rewrite (length_join_const (3 * length res)).
    - rewrite length_fmap. lia.
    - apply Forall_fmap, Forall_forall. intros [k s] _.
      apply length_save_scene_as_geotiff. }
  assert (Hexp : Forall (λ e, is_export e = true ∧ is_plot e = false) exports).
  { unfold exports. clearbody res md. clear.
    induction res as [|[k s] l IH] at 2; [constructor|].
    rewrite fmap_cons. cbn [mjoin list_join]. apply Forall_app. split; [|exact IH].
    apply save_scene_as_geotiff_exports. }
  rewrite !filter_cons_False by (cbn; congruence).
  rewrite !filter_app.
  rewrite (filter_all (λ e, is_export e = true) exports)
    by (eapply Forall_impl; [exact Hexp|by intros ? []]).
  rewrite (filter_none (λ e, is_plot e = true) exports)
    by (intros e He; apply (proj1 (Forall_forall _ _) Hexp) in He as [_ He]; congruence).
  destruct (last res) as [[k s]|] eqn:Hlast.
  - assert (Hne : res ≠ []) by (intros Hnil; by rewrite Hnil in Hlast).
    rewrite decide_False by done.
    rewrite (filter_none (λ e, is_export e = true))
      by (intros e He;
          apply (proj1 (Forall_forall _ _) (plot_scenes_plots _ _ _ _ _)) in He as [He _];
          congruence).
    rewrite (filter_all (λ e, is_plot e = true))
      by (eapply Forall_impl; [apply plot_scenes_plots|by intros ? []]).
    rewrite app_nil_r. cbn [app]. rewrite length_plot_scenes. split; [exact Hlen|done].
  - apply last_None in Hlast. rewrite decide_True by done.
    rewrite !filter_cons_False by (cbn; congruence). rewrite !filter_nil, app_nil_r.
    split; [exact Hlen|done].
Qed.

Lemma X7_witness :
  ∃ res events, process_shapefile "field" all_clear = Some (res, events)
    ∧ length (filter (λ e, is_export e = true) events)
      = 3 * length (data res) * length (data res)
    ∧ length (filter (λ e, is_plot e = true) events)
      = (if decide (data res = []) then 0 else 4 * length (data res) + 2).
Proof.
  apply (X7_requests_of_one_shapefile "field" all_clear).
  distinct_ids.
Defined.

(** ** File names of the exports *)

Lemma append_inv_head (s a b : string) : s +:+ a = s +:+ b → a = b.
Proof.
  induction s as [|c s IH]; [done|]. intros H.
  change (String c (s +:+ a) = String c (s +:+ b)) in H.
  injection H as H. by apply IH.
Qed.

Lemma file_name_label_inj (shapefile_name index l1 l2 : string) :
  shapefile_name +:+ "_" +:+ index +:+ "_" +:+ l1 +:+ ".tiff"
  = shapefile_name +:+ "_" +:+ index +:+ "_" +:+ l2 +:+ ".tiff" →
  l1 +:+ ".tiff" = l2 +:+ ".tiff".
Proof.
  intros H. by do 4 apply append_inv_head in H.
Qed.

Lemma digit_not_N n : digit n ≠ "N"%char.
Proof.
  unfold digit. intros H. apply (f_equal nat_of_ascii) in H.
  pose proof (Nat.mod_upper_bound n 10).
  rewrite nat_ascii_embedding in H by lia.
  change (nat_of_ascii "N") with 78 in H. lia.
Qed.

Lemma strftime_date_tiff_inj d d' :
  valid_date d → valid_date d' →
  strftime_date d +:+ ".tiff" = strftime_date d' +:+ ".tiff" → d = d'.
Proof.
  intros (Hy & Hm & Hd) (Hy' & Hm' & Hd') H.
  unfold strftime_date in H.
  assert (Hyy : pad4 (d_year d) = pad4 (d_year d'))
    by (unfold pad4, pad2 in *; cbv [String.append] in H; congruence).
  assert (Hmm : pad2 (d_month d) = pad2 (d_month d'))
    by (unfold pad4, pad2 in *; cbv [String.append] in H; congruence).
  assert (Hdd : pad2 (d_day d) = pad2 (d_day d'))
    by (unfold pad4, pad2 in *; cbv [String.append] in H; congruence).
  apply pad4_inj in Hyy; [|done..]. apply pad2_inj in Hmm; [|done..].
  apply pad2_inj in Hdd; [|done..].
  destruct d, d'. cbn in *. congruence.
Qed.

Lemma strftime_date_tiff_not_No_Date d :
  strftime_date d +:+ ".tiff" ≠ "No Date" +:+ ".tiff".
Proof.
  unfold strftime_date, pad4, pad2. cbv [String.append]. intros H.
  apply (digit_not_N (d_year d / 1000)). congruence.
Qed.

Lemma lookup_save_scene_as_geotiff scene shapefile_name metadata scene_id res
    idx id_at scene_at j index :
  res !! idx = Some (id_at, scene_at) → indices !! j = Some index →
  save_scene_as_geotiff scene shapefile_name metadata scene_id res !! (idx * 3 + j)
  = Some (ToRasterio id_at (base_paths index) shapefile_name
            (shapefile_name +:+ "_" +:+ index +:+ "_"
               +:+ sensing_date_string (sensing_dates_with_scene_used_list metadata) idx
               +:+ ".tiff") index).
Proof.
  intros Hidx Hj. unfold save_scene_as_geotiff.
  assert (j < 3) by (apply lookup_lt_Some in Hj; exact Hj).
  rewrite (lookup_join_imap _ 3 res idx j (id_at, scene_at)); [|by intros ? []|done..].
  cbn beta iota. by rewrite list_lookup_fmap, Hj.
Qed.

(** X8.  Two scenes of the kept series are exported to the same file of an
    index exactly when they get the same date label: the same sensing date,
    or none because both lie beyond the list of dates.  The later export
    then goes where the earlier one went. *)
Theorem X8_same_file_iff_same_date (scene : RasterScene) (shapefile_name : string)
    (metadata : list MetadataRow) (scene_id : datetime) (res : SceneCollection)
    (i1 i2 : nat) (id1 id2 : datetime) (s1 s2 : RasterScene) (j : nat) (index : string) :
  res !! i1 = Some (id1, s1) → res !! i2 = Some (id2, s2) →
  indices !! j = Some index →
  Forall valid_date (sensing_dates_with_scene_used_list metadata) →
  ∃ e1 e2,
    save_scene_as_geotiff scene shapefile_name metadata scene_id res !! (i1 * 3 + j) = Some e1
    ∧ save_scene_as_geotiff scene shapefile_name metadata scene_id res !! (i2 * 3 + j) = Some e2
    ∧ (export_target e1 = export_target e2 ↔
         sensing_dates_with_scene_used_list metadata !! i1
         = sensing_dates_with_scene_used_list metadata !! i2).
Proof.
  intros H1 H2 Hj Hvalid. eexists _, _.
  split; [by apply (lookup_save_scene_as_geotiff _ _ _ _ _ _ id1 s1)|].
  split; [by apply (lookup_save_scene_as_geotiff _ _ _ _ _ _ id2 s2)|].
  cbn [export_target]. rewrite !sensing_date_string_lookup.
  set (dates := sensing_dates_with_scene_used_list metadata) in *.
  split.
  - intros Ht. injection Ht as Hf. apply file_name_label_inj in Hf.
    destruct (dates !! i1) as [d1|] eqn:Hd1, (dates !! i2) as [d2|] eqn:Hd2.
    + f_equal. apply strftime_date_tiff_inj; [| |done].
      * apply (proj1 (Forall_lookup _ _) Hvalid i1 d1 Hd1).
      * apply (proj1 (Forall_lookup _ _) Hvalid i2 d2 Hd2).
    + by destruct (strftime_date_tiff_not_No_Date d1).
    + by destruct (strftime_date_tiff_not_No_Date d2).
    + done.
  - intros Hd. by rewrite Hd.
Qed.

Lemma X8_witness :
  ∃ e1 e2,
    save_scene_as_geotiff Sample.clear "field"
      [mkRow "S2A_1" Sample.t1 (Date 2023 5 1) "yes"] Sample.t1
      [(Sample.t1, Sample.clear); (Sample.t2, Sample.clear); (Sample.t3, Sample.clear)]
      !! (1 * 3 + 0) = Some e1
    ∧ save_scene_as_geotiff Sample.clear "field"
        [mkRow "S2A_1" Sample.t1 (Date 2023 5 1) "yes"] Sample.t1
        [(Sample.t1, Sample.clear); (Sample.t2, Sample.clear); (Sample.t3, Sample.clear)]
        !! (2 * 3 + 0) = Some e2
    ∧ (export_target e1 = export_target e2 ↔
         sensing_dates_with_scene_used_list
           [mkRow "S2A_1" Sample.t1 (Date 2023 5 1) "yes"] !! 1
         = sensing_dates_with_scene_used_list
             [mkRow "S2A_1" Sample.t1 (Date 2023 5 1) "yes"] !! 2).
Proof.
  apply (X8_same_file_iff_same_date Sample.clear "field"
           [mkRow "S2A_1" Sample.t1 (Date 2023 5 1) "yes"] Sample.t1
           [(Sample.t1, Sample.clear); (Sample.t2, Sample.clear); (Sample.t3, Sample.clear)]
           1 2 Sample.t2 Sample.t3 Sample.clear Sample.clear 0 "ndvi").
  - reflexivity.
  - reflexivity.
  - reflexivity.
  - change (Forall valid_date [Date 2023 5 1]).
    apply Forall_singleton. unfold valid_date. cbn [d_year d_month d_day]. lia.
Defined.

(** ** When the positional date labels are right *)

Lemma aligned_NoDup m : aligned m → NoDup (scene_ids (data m)).
Proof.
  intros [Hlen Hal]. apply NoDup_alt. intros j1 j2 k H1 H2.
  unfold scene_ids in H1, H2. rewrite list_lookup_fmap in H1, H2.
  destruct (data m !! j1) as [e1|] eqn:He1; [|done].
  destruct (data m !! j2) as [e2|] eqn:He2; [|done].
  injection H1 as H1. injection H2 as H2.
  assert (Hr : is_Some (metadata m !! j1)).
  { apply lookup_lt_is_Some. rewrite Hlen. by eapply lookup_lt_Some. }
  destruct Hr as [r Hr].
  apply (Hal j1 j2 r e2 Hr He2). unfold minute_match. rewrite H2, <- H1.
  by apply (Hal j1 j1 r e1 Hr He1).
Qed.

(** Under the correspondence a row still reads yes after the run exactly
    when the scene at its position passed both checks. *)
Lemma aligned_yes_iff_used m thr i r e :
  aligned m → metadata m !! i = Some r → data m !! i = Some e →
  scene_used (final_row thr (data m)
                (mkRow (product_uri r) (sensing_time r) (sensing_date r) "yes")) = "yes"
  ↔ classify thr e.2 = Used.
Proof.
  intros [Hlen Hal] Hr He. rewrite final_row_scene_used.
  destruct (last _) as [e'|] eqn:Hl.
  - apply last_filter_elem in Hl as [Hm He'].
    rewrite row_matches_set_yes, row_matches_iff in Hm.
    apply list_elem_of_filter in He' as [Hc He'].
    apply list_elem_of_lookup in He' as [j Hj].
    assert (i = j) by (by apply (Hal i j r e' Hr Hj)). subst j.
    assert (e' = e) by congruence. subst e'.
    split; [|done]. intros Hyes. by destruct (rejection_label _ Hc) as [H|H];
      rewrite H in Hyes.
  - split; [|done]. intros _. cbn [scene_used].
    destruct (decide (classify thr e.2 = Used)) as [|Hc]; [done|]. exfalso.
    apply last_None in Hl.
    assert (Hin : e ∈ filter (λ e0, row_matches e0.1
                     (mkRow (product_uri r) (sensing_time r) (sensing_date r) "yes") = true)
                     (rejected thr (data m))).
    { apply list_elem_of_filter. split.
      - rewrite row_matches_set_yes, row_matches_iff. by apply (Hal i i r e Hr He).
      - apply list_elem_of_filter. split; [done|]. by eapply list_elem_of_lookup_2. }
    rewrite Hl in Hin. by apply elem_of_nil in Hin.
Qed.

Lemma paired_filters thr (F : MetadataRow → MetadataRow)
    (l : list (MetadataRow * (datetime * RasterScene))) :
  (∀ p, p ∈ l → scene_used (F p.1) = "yes" ↔ classify thr p.2.2 = Used) →
  filter (λ r, scene_used r = "yes") (F <$> l.*1)
  = F <$> (filter (λ p, classify thr p.2.2 = Used) l).*1
  ∧ kept thr (l.*2)
    = (λ p, (p.2.1, add_indices p.2.2)) <$> filter (λ p, classify thr p.2.2 = Used) l.
Proof.
  unfold kept. induction l as [|p l IH]; intros Hl; [done|].
  assert (Hp : scene_used (F p.1) = "yes" ↔ classify thr p.2.2 = Used)
    by (apply Hl; by left).
  destruct IH as [IH1 IH2]; [intros q Hq; apply Hl; by right|].
  rewrite !fmap_cons.
  destruct (decide (classify thr p.2.2 = Used)) as [Hc|Hc].
  - rewrite (filter_cons_True (λ r, scene_used r = "yes")) by (by apply Hp).
    rewrite (filter_cons_True (λ p, classify thr p.2.2 = Used)) by done.
    rewrite (filter_cons_True (λ e, classify thr e.2 = Used)) by done.
    rewrite !fmap_cons, IH1, IH2. done.
  - rewrite (filter_cons_False (λ r, scene_used r = "yes")) by (by rewrite Hp).
    rewrite (filter_cons_False (λ p, classify thr p.2.2 = Used)) by done.
    rewrite (filter_cons_False (λ e, classify thr e.2 = Used)) by done.
    by rewrite IH1, IH2.
Qed.

(** X9.  When the table and the collection correspond row by scene, the
    positional date labels are right: after the run there are as many rows
    reading yes as kept scenes, so no label is No Date, and the scene at
    each position of the kept series is labelled with the sensing date of
    its own row. *)
Theorem X9_labels_right_when_aligned (m : Mapper) (thr : Q) :
  aligned m →
  ∃ res, extract_s2_data m thr = Some res
    ∧ length (sensing_dates_with_scene_used_list (metadata res)) = length (data res)
    ∧ ∀ idx scene_id scene, data res !! idx = Some (scene_id, scene) →
        ∃ i r s0, metadata m !! i = Some r
          ∧ data m !! i = Some (scene_id, s0)
          ∧ sensing_date_string (sensing_dates_with_scene_used_list (metadata res)) idx
            = strftime_date (sensing_date r).
Proof.
  intros Hal. assert (Hnd := aligned_NoDup m Hal).
  eexists. split; [by apply extract_s2_data_spec|]. cbn [metadata data].
  set (F := λ r, final_row thr (data m)
                   (mkRow (product_uri r) (sensing_time r) (sensing_date r) "yes")).
  set (z := zip (metadata m) (data m)).
  assert (Hz1 : z.*1 = metadata m) by (apply fst_zip; destruct Hal as [-> _]; done).
  assert (Hz2 : z.*2 = data m) by (apply snd_zip; destruct Hal as [-> _]; done).
  assert (Hzl : ∀ i p, z !! i = Some p →
                  metadata m !! i = Some p.1 ∧ data m !! i = Some p.2).
  { intros i p Hp. apply lookup_zip_with_Some in Hp as (r & e & -> & Hr & He). done. }
  assert (Hiff : ∀ p, p ∈ z → scene_used (F p.1) = "yes" ↔ classify thr p.2.2 = Used).
  { intros p [i Hp]%list_elem_of_lookup. destruct (Hzl i p Hp) as [Hr He].
    by apply (aligned_yes_iff_used m thr i). }
  destruct (paired_filters thr F z Hiff) as [Hyes Hkept].
  rewrite Hz1 in Hyes. rewrite Hz2 in Hkept.
  assert (Hmd : marked thr (data m) (set_column_scene_used "yes" (metadata m))
                = F <$> metadata m).
  { rewrite marked_rows. unfold set_column_scene_used.
    by rewrite <- list_fmap_compose. }
  rewrite Hmd, Hkept. unfold sensing_dates_with_scene_used_list. rewrite Hyes.
  split; [by rewrite !length_fmap|].
  intros idx scene_id scene Hidx.
  rewrite list_lookup_fmap in Hidx.
  destruct (filter _ z !! idx) as [p|] eqn:Hp; [|done].
  injection Hidx as Hid Hsc.
  assert (Hpz : p ∈ z).
  { apply list_elem_of_lookup_2 in Hp. by apply list_elem_of_filter in Hp as [_ Hp]. }
  apply list_elem_of_lookup in Hpz as [i Hi]. destruct (Hzl i p Hi) as [Hr He].
  exists i, p.1, p.2.2. split; [done|]. split.
  - rewrite He. by destruct p as [r [k s]]; cbn in *; subst.
  - rewrite sensing_date_string_lookup.
    rewrite !list_lookup_fmap, Hp. cbn [fmap option_fmap option_map].
    unfold F. by destruct (final_row_columns thr (data m)
      (mkRow (product_uri p.1) (sensing_time p.1) (sensing_date p.1) "yes")) as (_ & _ & ->).
Qed.

Lemma X9_witness :
  ∃ res, extract_s2_data in_step 20 = Some res
    ∧ length (sensing_dates_with_scene_used_list (metadata res)) = length (data res)
    ∧ ∀ idx scene_id scene, data res !! idx = Some (scene_id, scene) →
        ∃ i r s0, metadata in_step !! i = Some r
          ∧ data in_step !! i = Some (scene_id, s0)
          ∧ sensing_date_string (sensing_dates_with_scene_used_list (metadata res)) idx
            = strftime_date (sensing_date r).
Proof.
  apply (X9_labels_right_when_aligned in_step 20).
  split; [reflexivity|]. intros i j r e Hr He. unfold in_step in Hr, He.
  cbn [metadata data] in Hr, He.
  destruct i as [|[|i]]; try discriminate Hr;
    destruct j as [|[|j]]; try discriminate He;
    injection Hr as <-; injection He as <-;
    unfold minute_match; split; intros H;
    try reflexivity; try discriminate H; try (vm_compute in H; discriminate H).
Defined.

(** On that run the kept scene of 6 May is exported under its own date. *)
Example in_step_run :
  option_map (λ x, filter (λ e, is_export e = true) x.2) (process_shapefile "field" in_step)
  = Some
      [ ToRasterio Sample.t2 (base_paths "ndvi") "field" "field_ndvi_2023-05-06.tiff" "ndvi";
        ToRasterio Sample.t2 (base_paths "ndre") "field" "field_ndre_2023-05-06.tiff" "ndre";
        ToRasterio Sample.t2 (base_paths "evi") "field" "field_evi_2023-05-06.tiff" "evi" ].
Proof. vm_compute. reflexivity. Qed.
